(** * A shallow embedding of [app.py]: registration, login, session-backed
      authentication and the gated dashboard.

    The views of [app.py] are translated as computations in a small
    state-and-exception monad over the request context (the [users]
    collection, the client's session, the process' standard output).
    The collaborators the views call into (pymongo's collection, bson's
    [ObjectId], Flask and Flask-Login, WTForms, Flask-Bcrypt) are not among
    the sources; the part of their behaviour the views rely on is written
    out below, each such definition marked "Modelled from the spec".
    Requests are handled one at a time. *)

From Stdlib Require Import String Ascii List Bool NArith Arith Lia DecimalString.
Import ListNotations.
Open Scope string_scope.

(* ------------------------------------------------------------------ *)
(** * Python values, exceptions *)

(** The values that occur in a user document: [None], a [str], an
    [ObjectId] (its twelve bytes read as one number).  The constructor of
    [ObjectId] also lets through strings that give fewer than twelve
    bytes; such an identifier is kept with its bytes. *)
Inductive value : Type :=
| VNone
| VStr (s : string)
| VOid (o : N)
| VOidShort (binary : list N).

Inductive exn : Type :=
| InvalidId (s : string)
| KeyError (k : string)
| TypeError
| BuildError (endpoint : string)
| ValidationError (msg : string)
| StopValidation (msg : string).

Inductive outcome (A : Type) : Type :=
| Ok (a : A)
| Raise (e : exn).
Arguments Ok {A} a.
Arguments Raise {A} e.

Definition value_eqb (a b : value) : bool :=
  match a, b with
  | VNone, VNone => true
  | VStr s, VStr t => String.eqb s t
  | VOid o, VOid p => N.eqb o p
  | VOidShort a, VOidShort b => if list_eq_dec N.eq_dec a b then true else false
  | _, _ => false
  end.

(** A dict with string keys, in insertion order. *)
Definition document := list (string * value).

Fixpoint get (k : string) (d : document) : option value :=
  match d with
  | [] => None
  | (k', v) :: d' => if String.eqb k k' then Some v else get k d'
  end.

Definition keys (d : document) : list string := map fst d.

(** [d[k]]: raises [KeyError] when the key is absent. *)
Definition getitem (d : document) (k : string) : outcome value :=
  match get k d with
  | Some v => Ok v
  | None => Raise (KeyError k)
  end.

(* ------------------------------------------------------------------ *)
(** * The Credential Store: pymongo's [users] collection *)

(** Modelled from the spec: the collection is an external collaborator
    (section 2 of the specification: "a document collection keyed by a
    generated identifier"; section 3: "generated unique ID, assigned by
    store on creation").  Documents are kept in insertion order and the
    identifier of the next document comes from a counter. *)
Record Collection : Type := {
  docs : list document;
  next_oid : N
}.

Definition matches (k : string) (v : value) (d : document) : bool :=
  match get k d with
  | Some v' => value_eqb v' v
  | None => false
  end.

(** Modelled from the spec: [users.find_one({k: v})], the first document
    whose field [k] equals [v], or [None]. *)
Definition find_one (c : Collection) (k : string) (v : value) : option document :=
  find (matches k v) (docs c).

(** Modelled from the spec: [users.insert_one(d)] for a dict [d] without an
    [_id] (the only call, in [User.save], passes such a dict literal):
    the store assigns the identifier and appends the document. *)
Definition insert_one (c : Collection) (d : document) : Collection :=
  {| docs := docs c ++ [("_id", VOid (next_oid c)) :: d];
     next_oid := N.succ (next_oid c) |}.

(** Truth value of [find_one]'s result in [if user_data:]: [None] and the
    empty dict are false. *)
Definition truthy (r : option document) : bool :=
  match r with
  | Some (_ :: _) => true
  | _ => false
  end.

(* ------------------------------------------------------------------ *)
(** * bson's ObjectId *)

Definition hex_value (c : ascii) : option N :=
  let n := N_of_ascii c in
  if ((48 <=? n) && (n <=? 57))%N then Some (n - 48)%N
  else if ((97 <=? n) && (n <=? 102))%N then Some (n - 87)%N
  else if ((65 <=? n) && (n <=? 70))%N then Some (n - 55)%N
  else None.

Fixpoint fromhex (s : string) (acc : N) : option N :=
  match s with
  | EmptyString => Some acc
  | String c s' =>
      match hex_value c with
      | Some d => fromhex s' (16 * acc + d)%N
      | None => None
      end
  end.

(** A well-formed identifier string, 24 characters that are all
    hexadecimal digits: the strings [str] prints for an [ObjectId]. *)
Definition is_valid (s : string) : bool :=
  (String.length s =? 24)%nat &&
  match fromhex s 0%N with Some _ => true | None => false end.

(** ASCII whitespace: space, tab, line feed, vertical tab, form feed,
    carriage return. *)
Definition is_space (c : ascii) : bool :=
  let n := N_of_ascii c in
  ((n =? 32) || ((9 <=? n) && (n <=? 13)))%N.

(** Modelled from the spec: Python's [bytes.fromhex], which the
    constructor of [ObjectId] calls.  Whitespace before a pair of digits is
    skipped; then two hexadecimal digits give one byte.  Any other
    character, a digit without its partner and whitespace between the two
    digits of a pair are errors ([None]). *)
Fixpoint bytes_fromhex (s : string) : option (list N) :=
  match s with
  | EmptyString => Some []
  | String c s' =>
      if is_space c then bytes_fromhex s'
      else
        match hex_value c with
        | None => None
        | Some top =>
            match s' with
            | EmptyString => None
            | String c' s'' =>
                match hex_value c' with
                | None => None
                | Some bot =>
                    option_map (cons (16 * top + bot)%N) (bytes_fromhex s'')
                end
            end
        end
  end.

(** Bytes, most significant first, read as one number. *)
Definition N_of_bytes (bs : list N) : N :=
  fold_left (fun a b => (256 * a + b)%N) bs 0%N.

(** The [k] low bytes of a number, most significant first. *)
Fixpoint be_bytes (k : nat) (o : N) : list N :=
  match k with
  | O => []
  | S k' => be_bytes k' (o / 256)%N ++ [(o mod 256)%N]
  end.

Definition oid_of_bytes (bs : list N) : value :=
  if (List.length bs =? 12)%nat then VOid (N_of_bytes bs) else VOidShort bs.

(** Modelled from the spec: the constructor [ObjectId(s)] of the bson
    package on a [str] argument.  The package is not among the sources and
    the specification does not describe it; this follows the library: a
    string of 24 characters is handed to [bytes.fromhex] and the bytes it
    reads are the identifier, twelve of them when all 24 characters are
    digits and fewer when there is whitespace among them; a string of
    another length, and one [bytes.fromhex] cannot read, raises
    [InvalidId]. *)
Definition ObjectId (s : string) : outcome value :=
  if (String.length s =? 24)%nat then
    match bytes_fromhex s with
    | Some bs => Ok (oid_of_bytes bs)
    | None => Raise (InvalidId s)
    end
  else Raise (InvalidId s).

(** The strings [ObjectId] accepts. *)
Definition ObjectId_accepts (s : string) : bool :=
  (String.length s =? 24)%nat &&
  match bytes_fromhex s with Some _ => true | None => false end.

(** A character that is neither whitespace nor a hexadecimal digit, and a
    string that has one. *)
Definition foreign (c : ascii) : bool :=
  negb (is_space c) && match hex_value c with None => true | Some _ => false end.

Fixpoint has_foreign (s : string) : bool :=
  match s with
  | EmptyString => false
  | String c s' => foreign c || has_foreign s'
  end.

Definition hex_char (d : N) : ascii :=
  ascii_of_N (if (d <? 10)%N then (48 + d)%N else (87 + d)%N).

Fixpoint to_hex (n : nat) (o : N) (acc : string) : string :=
  match n with
  | O => acc
  | S n' => to_hex n' (o / 16)%N (String (hex_char (o mod 16)%N) acc)
  end.

(** [str(v)]; an ObjectId prints its bytes as lower-case hexadecimal
    digits, two for each byte: 24 for an identifier of twelve bytes. *)
Definition str (v : value) : string :=
  match v with
  | VNone => "None"
  | VStr s => s
  | VOid o => to_hex 24 o EmptyString
  | VOidShort bs => fold_right (fun b acc => to_hex 2 b acc) EmptyString bs
  end.

(* ------------------------------------------------------------------ *)
(** * The request context and its monad *)

(** Modelled from the spec: the session of the Session Manager (section 2:
    "an opaque session token bound to a user identifier"; glossary: flash
    message).  Of Flask's session, the key [_user_id] that Flask-Login
    keeps and the list [_flashes] of (category, message) pairs. *)
Record Session : Type := {
  user_id : option string;
  flashes : list (string * string)
}.

Record ctx : Type := {
  users : Collection;
  session : Session;
  stdout : list string
}.

Definition M (A : Type) : Type := ctx -> outcome A * ctx.

Definition ret {A} (a : A) : M A := fun c => (Ok a, c).

Definition raise {A} (e : exn) : M A := fun c => (Raise e, c).

Definition bind {A B} (m : M A) (k : A -> M B) : M B :=
  fun c =>
    match m c with
    | (Ok a, c') => k a c'
    | (Raise e, c') => (Raise e, c')
    end.

Declare Scope py_scope.
Delimit Scope py_scope with py.
Notation "x <- m ;; k" := (bind m (fun x => k))
  (at level 61, m at next level, right associativity) : py_scope.
Notation "m ;; k" := (bind m (fun _ => k))
  (at level 61, right associativity) : py_scope.
Open Scope py_scope.

Definition lift {A} (o : outcome A) : M A := fun c => (o, c).

Definition print (line : string) : M unit :=
  fun c => (Ok tt, {| users := users c; session := session c;
                      stdout := stdout c ++ [line] |}).

(** Modelled from the spec: Flask's [flash(message, category)] (glossary:
    "a one-time, render-once user-visible notice attached to the next
    response"); the message is appended to the session's list.  The
    templates that show and remove the messages are not among the
    sources. *)
Definition flash (message category : string) : M unit :=
  fun c => (Ok tt,
            {| users := users c;
               session := {| user_id := user_id (session c);
                             flashes := flashes (session c) ++ [(category, message)] |};
               stdout := stdout c |}).

Definition users_find_one (k : string) (v : value) : M (option document) :=
  fun c => (Ok (find_one (users c) k v), c).

Definition users_insert_one (d : document) : M unit :=
  fun c => (Ok tt, {| users := insert_one (users c) d;
                      session := session c; stdout := stdout c |}).

Definition set_user_id (u : option string) : M unit :=
  fun c => (Ok tt,
            {| users := users c;
               session := {| user_id := u; flashes := flashes (session c) |};
               stdout := stdout c |}).

(* ------------------------------------------------------------------ *)
(** * Flask-Bcrypt and the e-mail syntax check *)

(** Modelled from the spec: the Password Hasher [bcrypt = Bcrypt(app)]
    (section 4.1), an interface with the two operations of the
    specification.  [generate_password_hash] takes the salt it draws as an
    explicit first argument; [check_password_hash] is total ("no error
    conditions; malformed hash strings yield false"). *)
Class Bcrypt : Type := {
  generate_password_hash : string -> string -> string;
  check_password_hash : string -> string -> bool
}.

(** Modelled from the spec: the syntax check behind WTForms' [Email()]
    validator (section 4.2: "email must be syntactically valid"). *)
Class EmailSyntax : Type := email_ok : string -> bool.

(** [bcrypt.check_password_hash(h, p)] on a stored value [h]: the hasher
    is asked when [h] is a string. *)
Definition bcrypt_check `{Bcrypt} (h : value) (p : string) : outcome bool :=
  match h with
  | VStr s => Ok (check_password_hash s p)
  | _ => Raise TypeError
  end.

(* ------------------------------------------------------------------ *)
(** * class User *)

Module User.

Record t : Type := {
  _id : value;
  first_name : value;
  last_name : value;
  email : value;
  username : value;
  password : value
}.

Definition save (self : t) : M unit :=
  let user_data :=
    [ ("first_name", first_name self);
      ("last_name", last_name self);
      ("email", email self);
      ("username", username self);
      ("password", password self) ] in
  users_insert_one user_data.

Definition validate_login `{Bcrypt} (password_hash : value) (password : string)
  : outcome bool :=
  bcrypt_check password_hash password.

Definition is_authenticated (self : t) : bool := true.

Definition is_active (self : t) : bool := true.

Definition is_anonymous (self : t) : bool := false.

Definition get_id (self : t) : string := str (_id self).

End User.

(** [User(first_name=d['first_name'], ..., _id=d['_id'])], the keys read in
    the order the call evaluates its arguments. *)
Definition User_of_document (d : document) : outcome User.t :=
  match getitem d "first_name" with Raise e => Raise e | Ok fn =>
  match getitem d "last_name" with Raise e => Raise e | Ok ln =>
  match getitem d "email" with Raise e => Raise e | Ok em =>
  match getitem d "username" with Raise e => Raise e | Ok un =>
  match getitem d "password" with Raise e => Raise e | Ok pw =>
  match getitem d "_id" with Raise e => Raise e | Ok id =>
    Ok {| User._id := id; User.first_name := fn; User.last_name := ln;
          User.email := em; User.username := un; User.password := pw |}
  end end end end end end.

(** The user loader registered with [@login_manager.user_loader]. *)
Definition load_user (user_id : string) : M (option User.t) :=
  oid <- lift (ObjectId user_id) ;;
  user_data <- users_find_one "_id" oid ;;
  if truthy user_data then
    match user_data with
    | Some d => u <- lift (User_of_document d) ;; ret (Some u)
    | None => ret None
    end
  else ret None.

(* ------------------------------------------------------------------ *)
(** * Requests, responses, routing *)

Inductive method : Type := GET | POST.

Definition method_eqb (a b : method) : bool :=
  match a, b with
  | GET, GET | POST, POST => true
  | _, _ => false
  end.

(** A request as the views see it: path and method, the submitted form
    fields, the verdict of Flask-WTF's CSRF check on the submitted token
    ([None] when it passes, the error message otherwise) and the salt
    Flask-Bcrypt draws if this request hashes a password. *)
Record request : Type := {
  path : string;
  meth : method;
  formdata : list (string * string);
  csrf_error : option string;
  salt : string
}.

(** A WTForms field once bound: absent and empty submitted values are both
    the empty string (all fields of both forms are [InputRequired]). *)
Record field : Type := {
  name : string;
  data : string;
  errors : list string
}.

Definition Form := list field.

Inductive response : Type :=
| Render (template : string) (form : option Form)
| Redirect (location : string) (next : option string)
| Abort (status : nat)
| InternalServerError (e : exn).

(** The rules registered by the [@app.route] decorators: path, methods,
    endpoint (the name of the view function). *)
Definition url_map : list (string * list method * string) :=
  [ ("/", [GET], "home");
    ("/login", [GET; POST], "login");
    ("/dashboard", [GET; POST], "dashboard");
    ("/logout", [GET; POST], "logout");
    ("/register", [GET; POST], "register") ].

(** Modelled from the spec: Flask's [url_for], the path of the rule with
    this endpoint (section 6, the table of paths). *)
Definition url_for (endpoint : string) : M string :=
  match find (fun r => String.eqb (snd r) endpoint) url_map with
  | Some r => ret (fst (fst r))
  | None => raise (BuildError endpoint)
  end.

Definition redirect (location : string) : response := Redirect location None.

Definition render_template (template : string) (form : option Form) : response :=
  Render template form.

(* ------------------------------------------------------------------ *)
(** * Flask-Login *)

(** Modelled from the spec: Flask-Login's [current_user], the two states
    of the Access Gate (section 4.4: Anonymous, Authenticated). *)
Inductive principal : Type :=
| AnonymousUser
| LoggedIn (u : User.t).

Definition is_authenticated (p : principal) : bool :=
  match p with
  | AnonymousUser => false
  | LoggedIn u => User.is_authenticated u
  end.

(** The settings of [login_manager].  The application sets [login_view];
    the message and its category are Flask-Login's defaults, which the
    application leaves in place. *)
Record LoginManager : Type := {
  login_view : option string;
  login_message : option string;
  login_message_category : string
}.

Definition login_manager : LoginManager :=
  {| login_view := Some "login";
     login_message := Some "Please log in to access this page.";
     login_message_category := "message" |}.

(** Modelled from the spec: session resolution by Flask-Login (section
    4.4: "must look up the Credential Store by the session-bound ID on
    every request that needs identity; if the referenced ID no longer
    exists, the request must be treated as Anonymous").  The user loader
    is called on the session's [_user_id] when there is one, and a loader
    result [None] leaves the anonymous user in place. *)
Definition current_user : M principal :=
  fun c =>
    match user_id (session c) with
    | None => (Ok AnonymousUser, c)
    | Some uid =>
        (u <- load_user uid ;;
         match u with
         | Some user => ret (LoggedIn user)
         | None => ret AnonymousUser
         end) c
    end.

(** Modelled from the spec: Flask-Login's [login_user] (section 4.3:
    "issue a session bound to the user's ID"); an inactive user is not
    logged in. *)
Definition login_user (user : User.t) : M bool :=
  if negb (User.is_active user) then ret false
  else (set_user_id (Some (User.get_id user)) ;; ret true).

(** Modelled from the spec: Flask-Login's [logout_user] (section 4.4:
    "explicit Logout (destroys session)"). *)
Definition logout_user : M bool :=
  set_user_id None ;; ret true.

(** Modelled from the spec: Flask-Login's [login_manager.unauthorized()]
    (section 4.4: "any access attempt while Anonymous is redirected to the
    login entry point with no error persisted").  Without a login view the
    request is aborted with 401; with one, the login message (a notice of
    category [message], not an error) is flashed and the client is sent to
    the login view, the requested path in the [next] parameter. *)
Definition unauthorized (lm : LoginManager) (r : request) : M response :=
  match login_view lm with
  | None => ret (Abort 401)
  | Some view =>
      match login_message lm with
      | Some msg => flash msg (login_message_category lm)
      | None => ret tt
      end ;;
      url <- url_for view ;;
      ret (Redirect url (Some (path r)))
  end.

(** Modelled from the spec: the decorator [@login_required], the Access
    Gate (section 2: "check applied to protected routes, redirecting
    unauthenticated requests to the login entry point"). *)
Definition login_required (r : request) (view : M response) : M response :=
  u <- current_user ;;
  if negb (is_authenticated u) then unauthorized login_manager r
  else view.

(* ------------------------------------------------------------------ *)
(** * WTForms *)

(** Modelled from the spec: WTForms validation (section 4.2; section 9:
    "validation-as-exception").  A validator is called with the form and
    the field and reports by raising [ValidationError] or
    [StopValidation]. *)
Definition validator := Form -> field -> M unit.

Record unbound_field : Type := {
  uf_name : string;
  uf_validators : list validator;
  uf_inline : list validator
}.

(** Modelled from the spec: WTForms' [InputRequired] ("all required"). *)
Definition InputRequired : validator :=
  fun _ f =>
    if String.eqb (data f) EmptyString then raise (StopValidation "This field is required.")
    else ret tt.

Definition show_nat (n : nat) : string :=
  DecimalString.NilEmpty.string_of_uint (Nat.to_uint n).

(** Modelled from the spec: WTForms' [Length(min, max)] ("username length in
    [4,20]; password length in [8,20]"). *)
Definition Length (min max : nat) : validator :=
  fun _ f =>
    let length := String.length (data f) in
    if ((min <=? length) && (length <=? max))%nat then ret tt
    else raise (ValidationError
                  ("Field must be between " ++ show_nat min ++ " and "
                   ++ show_nat max ++ " characters long.")).

(** Modelled from the spec: WTForms' [Email()]. *)
Definition Email `{EmailSyntax} : validator :=
  fun _ f =>
    if email_ok (data f) then ret tt
    else raise (ValidationError "Invalid email address.").

(** Modelled from the spec: the check of the hidden [csrf_token] field of
    a [FlaskForm] (section 1: CSRF tokens are "assumed provided by the
    collaborator framework"); the request carries its verdict. *)
Definition csrf_token_check (r : request) : validator :=
  fun _ _ =>
    match csrf_error r with
    | Some msg => raise (ValidationError msg)
    | None => ret tt
    end.

Definition add_error (f : field) (msg : string) : field :=
  {| name := name f; data := data f; errors := errors f ++ [msg] |}.

(** Modelled from the spec: WTForms' [Field._run_validation_chain]
    (section 4.2: a violation "surfaces a field-scoped error message").
    [StopValidation] ends the chain, [ValidationError] records the message
    and goes on; any other exception passes through. *)
Fixpoint _run_validation_chain (form : Form) (f : field) (vs : list validator)
  : M field :=
  match vs with
  | [] => ret f
  | v :: vs' =>
      fun c =>
        match v form f c with
        | (Ok _, c') => _run_validation_chain form f vs' c'
        | (Raise (StopValidation msg), c') =>
            (Ok (if String.eqb msg EmptyString then f else add_error f msg), c')
        | (Raise (ValidationError msg), c') =>
            _run_validation_chain form (add_error f msg) vs' c'
        | (Raise e, c') => (Raise e, c')
        end
  end.

(** Modelled from the spec: WTForms' [Field.validate(form,
    extra_validators)]: the field's validators, then the inline
    [validate_<name>] methods of the form class. *)
Definition Field_validate (form : Form) (u : unbound_field) (f : field) : M field :=
  _run_validation_chain form
    {| name := name f; data := data f; errors := [] |}
    (uf_validators u ++ uf_inline u).

Definition no_errors (f : field) : bool :=
  match errors f with [] => true | _ => false end.

(** Modelled from the spec: WTForms' [Form.validate()]; every field is
    validated, none is skipped, and the form is valid when no field has an
    error. *)
Fixpoint validate_fields (form : Form) (l : list (unbound_field * field))
  : M (Form * bool) :=
  match l with
  | [] => ret ([], true)
  | (u, f) :: l' =>
      f' <- Field_validate form u f ;;
      rest <- validate_fields form l' ;;
      ret (f' :: fst rest, no_errors f' && snd rest)
  end.

(** Modelled from the spec: Flask-WTF's [is_submitted]; of the methods the
    routes admit, [POST] is a submission. *)
Definition is_submitted (r : request) : bool := method_eqb (meth r) POST.

Fixpoint lookup (k : string) (l : list (string * string)) : string :=
  match l with
  | [] => EmptyString
  | (k', v) :: l' => if String.eqb k k' then v else lookup k l'
  end.

(** Modelled from the spec: instantiating a [FlaskForm] class in a
    request; the fields are bound to the submitted data when the request is
    a submission. *)
Definition bind_form (cls : list unbound_field) (r : request) : Form :=
  map (fun u => {| name := uf_name u;
                   data := if is_submitted r then lookup (uf_name u) (formdata r)
                           else EmptyString;
                   errors := [] |}) cls.

(** Modelled from the spec: Flask-WTF's [form.validate_on_submit()],
    returning the form with its errors set. *)
Definition validate_on_submit (cls : list unbound_field) (r : request) (form : Form)
  : M (Form * bool) :=
  if is_submitted r then validate_fields form (combine cls form)
  else ret (form, false).

(** [form.<name>.data]. *)
Fixpoint field_data (form : Form) (n : string) : string :=
  match form with
  | [] => EmptyString
  | f :: form' => if String.eqb (name f) n then data f else field_data form' n
  end.

(** [form.errors]: the fields that have errors, with their messages. *)
Definition form_errors (form : Form) : list (string * list string) :=
  map (fun f => (name f, errors f))
      (filter (fun f => negb (no_errors f)) form).

(* ------------------------------------------------------------------ *)
(** * The forms of the application *)

Definition validate_username : validator :=
  fun self username =>
    existing_user_username <- users_find_one "username" (VStr (data username)) ;;
    if truthy existing_user_username then
      raise (ValidationError
               "This username already exists. Please choose a different one.")
    else ret tt.

Definition validate_email : validator :=
  fun self email =>
    existing_user_email <- users_find_one "email" (VStr (data email)) ;;
    if truthy existing_user_email then
      raise (ValidationError
               "This email is already in use. Please choose a different one.")
    else ret tt.

(** The fields of [RegisterForm] in the order of the class body, each with
    its validators and its inline [validate_<name>] method, then the
    [csrf_token] field every [FlaskForm] has.  The submit button is a field
    without validators. *)
Definition RegisterForm `{EmailSyntax} (r : request) : list unbound_field :=
  [ {| uf_name := "first_name"; uf_validators := [InputRequired]; uf_inline := [] |};
    {| uf_name := "last_name"; uf_validators := [InputRequired]; uf_inline := [] |};
    {| uf_name := "email"; uf_validators := [InputRequired; Email];
       uf_inline := [validate_email] |};
    {| uf_name := "username"; uf_validators := [InputRequired; Length 4 20];
       uf_inline := [validate_username] |};
    {| uf_name := "password"; uf_validators := [InputRequired; Length 8 20];
       uf_inline := [] |};
    {| uf_name := "submit"; uf_validators := []; uf_inline := [] |};
    {| uf_name := "csrf_token"; uf_validators := [csrf_token_check r];
       uf_inline := [] |} ].

Definition LoginForm (r : request) : list unbound_field :=
  [ {| uf_name := "username"; uf_validators := [InputRequired; Length 4 20];
       uf_inline := [] |};
    {| uf_name := "password"; uf_validators := [InputRequired; Length 8 20];
       uf_inline := [] |};
    {| uf_name := "submit"; uf_validators := []; uf_inline := [] |};
    {| uf_name := "csrf_token"; uf_validators := [csrf_token_check r];
       uf_inline := [] |} ].

(* ------------------------------------------------------------------ *)
(** * The views *)

Section Views.

Context `{Bcrypt} `{EmailSyntax}.

Definition home (r : request) : M response :=
  ret (render_template "home.html" None).

(** The [else] branch of [login]: the one message for every failed
    attempt. *)
Definition login_failed (form : Form) : M response :=
  flash "Invalid username or password" "error" ;;
  ret (render_template "login.html" (Some form)).

Definition login (r : request) : M response :=
  let form := bind_form (LoginForm r) r in
  v <- validate_on_submit (LoginForm r) r form ;;
  let form := fst v in
  if snd v then
    user_data <- users_find_one "username" (VStr (field_data form "username")) ;;
    match user_data with
    | Some d =>
        if truthy user_data then
          h <- lift (getitem d "password") ;;
          ok <- lift (bcrypt_check h (field_data form "password")) ;;
          if ok then
            user_obj <- lift (User_of_document d) ;;
            login_user user_obj ;;
            url <- url_for "dashboard" ;;
            ret (redirect url)
          else login_failed form
        else login_failed form
    | None => login_failed form
    end
  else ret (render_template "login.html" (Some form)).

Definition dashboard (r : request) : M response :=
  login_required r (ret (render_template "dashboard.html" None)).

Definition logout (r : request) : M response :=
  login_required r
    (logout_user ;;
     url <- url_for "login" ;;
     ret (redirect url)).

(** The two nested [for] loops that print [form.errors]. *)
Fixpoint print_errors (field : string) (errors : list string) : M unit :=
  match errors with
  | [] => ret tt
  | error :: errors' =>
      print ("Error in the " ++ field ++ " field - " ++ error) ;;
      print_errors field errors'
  end.

Fixpoint print_form_errors (items : list (string * list string)) : M unit :=
  match items with
  | [] => ret tt
  | (field, errors) :: items' =>
      print_errors field errors ;;
      print_form_errors items'
  end.

Definition register (r : request) : M response :=
  let form := bind_form (RegisterForm r) r in
  v <- validate_on_submit (RegisterForm r) r form ;;
  let form := fst v in
  if snd v then
    let hashed_password :=
      generate_password_hash (salt r) (field_data form "password") in
    let new_user :=
      {| User._id := VNone;
         User.first_name := VStr (field_data form "first_name");
         User.last_name := VStr (field_data form "last_name");
         User.email := VStr (field_data form "email");
         User.username := VStr (field_data form "username");
         User.password := VStr hashed_password |} in
    User.save new_user ;;
    url <- url_for "login" ;;
    ret (redirect url)
  else
    match form_errors form with
    | [] => ret tt
    | items => print "Form errors:" ;; print_form_errors items
    end ;;
    ret (render_template "register.html" (Some form)).

Definition view_functions (endpoint : string) : option (request -> M response) :=
  if String.eqb endpoint "home" then Some home
  else if String.eqb endpoint "login" then Some login
  else if String.eqb endpoint "dashboard" then Some dashboard
  else if String.eqb endpoint "logout" then Some logout
  else if String.eqb endpoint "register" then Some register
  else None.

(** Modelled from the spec: Flask's dispatch of a request to its view
    (section 6, the HTTP surface; section 7: errors the flows do not catch
    "propagate to the collaborator's default error handling").  404 for an
    unknown path, 405 for a method the rule does not list, 500 when the view
    raises; what the view did to the context before raising stays. *)
Definition handle (c : ctx) (r : request) : response * ctx :=
  match find (fun rule => String.eqb (fst (fst rule)) (path r)) url_map with
  | None => (Abort 404, c)
  | Some rule =>
      if existsb (method_eqb (meth r)) (snd (fst rule)) then
        match view_functions (snd rule) with
        | Some view =>
            match view r c with
            | (Ok resp, c') => (resp, c')
            | (Raise e, c') => (InternalServerError e, c')
            end
        | None => (Abort 404, c)
        end
      else (Abort 405, c)
  end.

(** A client that sends one request after the other, each with the
    session the previous response left. *)
Fixpoint run (c : ctx) (rs : list request) : list response * ctx :=
  match rs with
  | [] => ([], c)
  | r :: rs' =>
      let (resp, c') := handle c r in
      let (resps, c'') := run c' rs' in
      (resp :: resps, c'')
  end.

End Views.

(* ------------------------------------------------------------------ *)
(** * Stand-ins for the collaborators, for the examples *)

Fixpoint fit (n : nat) (s : string) : string :=
  match n with
  | O => EmptyString
  | S n' =>
      match s with
      | EmptyString => String "." (fit n' EmptyString)
      | String c s' => String c (fit n' s')
      end
  end.

(** A stand-in with the layout of a bcrypt hash string: a 7-character
    prefix, 22 characters of salt, 31 characters of digest. *)
Definition stub_hash (salt password : string) : string :=
  "$2b$12$" ++ fit 22 salt ++ fit 31 password.

Definition stub_check (h password : string) : bool :=
  String.eqb h (stub_hash (substring 7 22 h) password).

Definition stub_bcrypt : Bcrypt :=
  {| generate_password_hash := stub_hash; check_password_hash := stub_check |}.

Fixpoint contains (c : ascii) (s : string) : bool :=
  match s with
  | EmptyString => false
  | String c' s' => Ascii.eqb c c' || contains c s'
  end.

Definition stub_email : EmailSyntax := contains "@"%char.

Definition empty_ctx : ctx :=
  {| users := {| docs := []; next_oid := 0 |};
     session := {| user_id := None; flashes := [] |};
     stdout := [] |}.

Definition get_ (p : string) : request :=
  {| path := p; meth := GET; formdata := []; csrf_error := None; salt := EmptyString |}.

Definition post_ (p : string) (fd : list (string * string)) (s : string) : request :=
  {| path := p; meth := POST; formdata := fd; csrf_error := None; salt := s |}.

Definition alice_registration : request :=
  post_ "/register"
    [("first_name", "Alice"); ("last_name", "Liddell"); ("email", "a@x.com");
     ("username", "alice2024"); ("password", "Passw0rd!")] "s1".

Definition alice_login : request :=
  post_ "/login" [("username", "alice2024"); ("password", "Passw0rd!")] EmptyString.

Definition stub_handle : ctx -> request -> response * ctx :=
  @handle stub_bcrypt stub_email.

Definition stub_run : ctx -> list request -> list response * ctx :=
  @run stub_bcrypt stub_email.

(** The context after Alice has registered and logged in. *)
Definition alice_logged_in : ctx :=
  Eval vm_compute in snd (stub_run empty_ctx [alice_registration; alice_login]).

(* ------------------------------------------------------------------ *)
(** * Closed forms of form validation, and the notions the properties use *)

Definition required_msg : string := "This field is required.".

Definition length_msg (min max : nat) : string :=
  "Field must be between " ++ show_nat min ++ " and " ++ show_nat max
  ++ " characters long.".

Definition length_ok (min max : nat) (s : string) : bool :=
  ((min <=? String.length s) && (String.length s <=? max))%nat.

Definition taken (c : Collection) (k s : string) : bool :=
  truthy (find_one c k (VStr s)).

Definition errs_required (s : string) : list string :=
  if String.eqb s EmptyString then [required_msg] else [].

Definition errs_length (min max : nat) (s : string) : list string :=
  if String.eqb s EmptyString then [required_msg]
  else if length_ok min max s then [] else [length_msg min max].

Definition errs_email `{EmailSyntax} (c : Collection) (s : string) : list string :=
  if String.eqb s EmptyString then [required_msg]
  else (if email_ok s then [] else ["Invalid email address."])
       ++ (if taken c "email" s
           then ["This email is already in use. Please choose a different one."]
           else []).

Definition errs_username (c : Collection) (s : string) : list string :=
  if String.eqb s EmptyString then [required_msg]
  else (if length_ok 4 20 s then [] else [length_msg 4 20])
       ++ (if taken c "username" s
           then ["This username already exists. Please choose a different one."]
           else []).

Definition errs_csrf (r : request) : list string :=
  match csrf_error r with Some msg => [msg] | None => [] end.

Definition submitted (r : request) (k : string) : string := lookup k (formdata r).

(** The registration form after validation of a submission. *)
Definition validated_RegisterForm `{EmailSyntax} (c : Collection) (r : request) : Form :=
  [ {| name := "first_name"; data := submitted r "first_name";
       errors := errs_required (submitted r "first_name") |};
    {| name := "last_name"; data := submitted r "last_name";
       errors := errs_required (submitted r "last_name") |};
    {| name := "email"; data := submitted r "email";
       errors := errs_email c (submitted r "email") |};
    {| name := "username"; data := submitted r "username";
       errors := errs_username c (submitted r "username") |};
    {| name := "password"; data := submitted r "password";
       errors := errs_length 8 20 (submitted r "password") |};
    {| name := "submit"; data := submitted r "submit"; errors := [] |};
    {| name := "csrf_token"; data := submitted r "csrf_token";
       errors := errs_csrf r |} ].

Definition validated_LoginForm (r : request) : Form :=
  [ {| name := "username"; data := submitted r "username";
       errors := errs_length 4 20 (submitted r "username") |};
    {| name := "password"; data := submitted r "password";
       errors := errs_length 8 20 (submitted r "password") |};
    {| name := "submit"; data := submitted r "submit"; errors := [] |};
    {| name := "csrf_token"; data := submitted r "csrf_token";
       errors := errs_csrf r |} ].

(** When a registration request passes validation, in the words of the
    specification (section 4.2): a submission, all fields present, the
    e-mail syntactically valid, user name of 4 to 20 and password of 8 to
    20 characters, neither user name nor e-mail in the store already. *)
Definition register_accepts `{EmailSyntax} (c : Collection) (r : request) : bool :=
  is_submitted r
  && negb (String.eqb (submitted r "first_name") EmptyString)
  && negb (String.eqb (submitted r "last_name") EmptyString)
  && (negb (String.eqb (submitted r "email") EmptyString)
      && email_ok (submitted r "email")
      && negb (taken c "email" (submitted r "email")))
  && (negb (String.eqb (submitted r "username") EmptyString)
      && length_ok 4 20 (submitted r "username")
      && negb (taken c "username" (submitted r "username")))
  && (negb (String.eqb (submitted r "password") EmptyString)
      && length_ok 8 20 (submitted r "password"))
  && match csrf_error r with None => true | Some _ => false end.

(** When a login request passes validation (section 4.3). *)
Definition login_accepts (r : request) : bool :=
  is_submitted r
  && (negb (String.eqb (submitted r "username") EmptyString)
      && length_ok 4 20 (submitted r "username"))
  && (negb (String.eqb (submitted r "password") EmptyString)
      && length_ok 8 20 (submitted r "password"))
  && match csrf_error r with None => true | Some _ => false end.

(** The document a registration request persists. *)
Definition new_document `{Bcrypt} (c : Collection) (r : request) : document :=
  [ ("_id", VOid (next_oid c));
    ("first_name", VStr (submitted r "first_name"));
    ("last_name", VStr (submitted r "last_name"));
    ("email", VStr (submitted r "email"));
    ("username", VStr (submitted r "username"));
    ("password", VStr (generate_password_hash (salt r) (submitted r "password"))) ].

(** No two documents of the collection agree on field [k]. *)
Definition unique_on (k : string) (c : Collection) : Prop :=
  NoDup (map (get k) (docs c)).

(** The collections that arise from the empty one by serving requests, of
    whatever clients (any session) in whatever order. *)
Inductive reachable `{Bcrypt} `{EmailSyntax} : Collection -> Prop :=
| reachable_empty : forall n, reachable {| docs := []; next_oid := n |}
| reachable_handle : forall c r,
    reachable (users c) -> reachable (users (snd (handle c r))).

Definition protected (r : request) : Prop :=
  path r = "/dashboard" \/ path r = "/logout".

(** The record shape of section 6 of the specification. *)
Definition specified_shape : list string :=
  ["_id"; "first_name"; "last_name"; "email"; "username"; "password_hash"].

Definition stored_shape : list string :=
  ["_id"; "first_name"; "last_name"; "email"; "username"; "password"].

Definition same_fields (d : document) (shape : list string) : Prop :=
  forall k, In k (keys d) <-> In k shape.

(** A computation that leaves the context as it found it. *)
Definition readonly {A} (m : M A) : Prop := forall c, snd (m c) = c.

(** A computation that leaves the collection as it found it. *)
Definition keeps_users {A} (m : M A) : Prop :=
  forall c, users (snd (m c)) = users c.

(** What [handle] makes of a view's result. *)
Definition served (v : request -> M response) (c : ctx) (r : request)
  : response * ctx :=
  match v r c with
  | (Ok resp, c') => (resp, c')
  | (Raise e, c') => (InternalServerError e, c')
  end.

(** The context after [flash(message, category)]. *)
Definition flashed (c : ctx) (category message : string) : ctx :=
  {| users := users c;
     session := {| user_id := user_id (session c);
                   flashes := flashes (session c) ++ [(category, message)] |};
     stdout := stdout c |}.

(** The context after [logout_user()]. *)
Definition logged_out (c : ctx) : ctx :=
  {| users := users c;
     session := {| user_id := None; flashes := flashes (session c) |};
     stdout := stdout c |}.

(** The context after some lines were printed. *)
Definition printed (c : ctx) (lines : list string) : ctx :=
  {| users := users c; session := session c; stdout := stdout c ++ lines |}.

Definition error_lines (items : list (string * list string)) : list string :=
  flat_map (fun item =>
              map (fun error => "Error in the " ++ fst item ++ " field - " ++ error)
                  (snd item)) items.

(** What [register] prints for a form with these errors. *)
Definition register_log (form : Form) : list string :=
  match form_errors form with
  | [] => []
  | items => "Form errors:" :: error_lines items
  end.

(** The context after [register] has persisted the new user. *)
Definition registered `{Bcrypt} (c : ctx) (r : request) : ctx :=
  {| users := {| docs := docs (users c) ++ [new_document (users c) r];
                 next_oid := N.succ (next_oid (users c)) |};
     session := session c;
     stdout := stdout c |}.

(** A session bound to a well-formed identifier that no record carries, and
    one bound to a malformed identifier. *)
Definition stale_ctx : ctx :=
  {| users := {| docs := []; next_oid := 0 |};
     session := {| user_id := Some "0123456789abcdef01234567"; flashes := [] |};
     stdout := [] |}.

Definition malformed_ctx : ctx :=
  {| users := {| docs := []; next_oid := 0 |};
     session := {| user_id := Some "None"; flashes := [] |};
     stdout := [] |}.

(** A string of 24 characters that is not a well-formed identifier, two
    of its characters being spaces, and Alice's store with a session bound
    to it. *)
Definition spaced_id : string := "0123456789abcdef  012345".

Definition spaced_ctx : ctx :=
  Eval vm_compute in
    {| users := users (snd (stub_handle empty_ctx alice_registration));
       session := {| user_id := Some spaced_id; flashes := [] |};
       stdout := [] |}.

(** The context after Alice has registered, and a login attempt with her
    user name and a wrong password. *)
Definition alice_registered : ctx :=
  Eval vm_compute in snd (stub_handle empty_ctx alice_registration).

Definition wrong_password_login : request :=
  post_ "/login" [("username", "alice2024"); ("password", "Passw0rd?")] EmptyString.

Definition duplicate_registration : request :=
  post_ "/register"
    [("first_name", "Alan"); ("last_name", "Liddell"); ("email", "alan@x.com");
     ("username", "alice2024"); ("password", "S3cretPass")] "s2".

Definition alice_document : document :=
  Eval vm_compute in hd [] (docs (users alice_registered)).

Definition alice_user : User.t :=
  Eval vm_compute in
    match User_of_document alice_document with
    | Ok u => u
    | Raise _ =>
        {| User._id := VNone; User.first_name := VNone; User.last_name := VNone;
           User.email := VNone; User.username := VNone; User.password := VNone |}
    end.

(** The flashed messages of category [error]. *)
Definition errors_flashed (s : Session) : list (string * string) :=
  filter (fun m => String.eqb (fst m) "error") (flashes s).

(* ------------------------------------------------------------------ *)
(** * Notions for the properties of the whole application *)

Definition is_str (v : option value) : bool :=
  match v with Some (VStr _) => true | _ => false end.

Definition is_oid (v : option value) : bool :=
  match v with Some (VOid _) => true | _ => false end.

(** A document with the six fields the views read, an [ObjectId] under
    [_id] and strings under the others. *)
Definition record_ok (d : document) : bool :=
  is_oid (get "_id" d)
  && is_str (get "first_name" d)
  && is_str (get "last_name" d)
  && is_str (get "email" d)
  && is_str (get "username" d)
  && is_str (get "password" d).

(** A session without a user, or bound to a well-formed identifier. *)
Definition session_ok (s : Session) : bool :=
  match user_id s with
  | None => true
  | Some uid => is_valid uid
  end.

(** The contexts the application itself produces: well-formed records,
    well-formed session. *)
Definition well_formed (c : ctx) : Prop :=
  Forall (fun d => record_ok d = true) (docs (users c))
  /\ session_ok (session c) = true.

(** The context after [login_user] has bound the session to [uid]. *)
Definition logged_in_as (c : ctx) (uid : string) : ctx :=
  {| users := users c;
     session := {| user_id := Some uid; flashes := flashes (session c) |};
     stdout := stdout c |}.

(** The keys [User(...)] reads from a document, in the order of the
    arguments of the call in [load_user] and [login]. *)
Definition constructor_keys : list string :=
  ["first_name"; "last_name"; "email"; "username"; "password"; "_id"].

Definition first_missing (d : document) : option string :=
  find (fun k => match get k d with None => true | Some _ => false end)
       constructor_keys.

Definition is_server_error (resp : response) : bool :=
  match resp with InternalServerError _ => true | _ => false end.

(** A record as [register] writes it: the submitted names not empty, the
    e-mail address accepted by the syntax check, the user name of 4 to 20
    characters, and under [password] the hash of a password of 8 to 20
    characters. *)
Definition registered_record `{Bcrypt} `{EmailSyntax} (d : document) : Prop :=
  exists (o : N) (fn ln em un pw s : string),
    d = [ ("_id", VOid o); ("first_name", VStr fn); ("last_name", VStr ln);
          ("email", VStr em); ("username", VStr un);
          ("password", VStr (generate_password_hash s pw)) ]
    /\ fn <> EmptyString /\ ln <> EmptyString
    /\ email_ok em = true
    /\ 4 <= String.length un <= 20
    /\ 8 <= String.length pw <= 20.

(** The number of error messages of a form. *)
Definition count_errors (form : Form) : nat :=
  list_sum (map (fun f => List.length (errors f)) form).

(** A login request with the credentials of a registration request. *)
Definition login_of (r : request) : request :=
  {| path := "/login"; meth := POST;
     formdata := [("username", submitted r "username");
                  ("password", submitted r "password")];
     csrf_error := None; salt := EmptyString |}.

(** [d[k]] for a document that has the key. *)
Definition value_at (d : document) (k : string) : value :=
  match get k d with Some v => v | None => VNone end.

(** The user [User(first_name=d['first_name'], ..., _id=d['_id'])] of a
    document that has the six keys. *)
Definition user_of (d : document) : User.t :=
  {| User._id := value_at d "_id";
     User.first_name := value_at d "first_name";
     User.last_name := value_at d "last_name";
     User.email := value_at d "email";
     User.username := value_at d "username";
     User.password := value_at d "password" |}.

(** A login attempt whose password is too short for the form. *)
Definition short_password_login : request :=
  post_ "/login" [("username", "alice2024"); ("password", "Pass")] EmptyString.

(** A store with a record that has a user name and nothing else, as
    another writer to the collection could leave it. *)
Definition bare_record : document :=
  [("_id", VOid 7); ("username", VStr "alice2024")].

Definition bare_ctx : ctx :=
  {| users := {| docs := [bare_record]; next_oid := 8 |};
     session := {| user_id := None; flashes := [] |};
     stdout := [] |}.

(* ------------------------------------------------------------------ *)
(** * Properties *)

Section Properties.

Context `{Bcrypt} `{EmailSyntax}.

(** ** The store *)

Lemma find_one_nonempty (c : Collection) (k : string) (v : value) :
  truthy (find_one c k v) =
  match find_one c k v with Some _ => true | None => false end.
Proof.
  unfold find_one.
  destruct (find (matches k v) (docs c)) as [d|] eqn:E; [|reflexivity].
  apply find_some in E. destruct E as [_ E].
  destruct d; [discriminate E | reflexivity].
Qed.

Lemma value_eqb_eq (a b : value) : value_eqb a b = true <-> a = b.
Proof.
  destruct a, b; simpl; split; intro E;
    try discriminate; try reflexivity.
  - apply String.eqb_eq in E. now subst.
  - injection E as ->. apply String.eqb_refl.
  - apply N.eqb_eq in E. now subst.
  - injection E as ->. apply N.eqb_refl.
  - destruct (list_eq_dec N.eq_dec binary binary0); [now subst|discriminate].
  - injection E as ->.
    destruct (list_eq_dec N.eq_dec binary0 binary0); [reflexivity|contradiction].
Qed.

Lemma not_taken_not_in (c : Collection) (k s : string) :
  taken c k s = false -> ~ In (Some (VStr s)) (map (get k) (docs c)).
Proof.
  unfold taken. rewrite find_one_nonempty. unfold find_one.
  destruct (find (matches k (VStr s)) (docs c)) eqn:E; [discriminate|].
  intros _ Hin. apply in_map_iff in Hin. destruct Hin as [d [Hd Hin]].
  apply (find_none _ _ E) in Hin. unfold matches in Hin.
  rewrite Hd in Hin. simpl in Hin. now rewrite String.eqb_refl in Hin.
Qed.

(** ** Validation in closed form *)

Lemma Field_validate_required (form : Form) (n : string) (f : field) (c : ctx) :
  Field_validate form
    {| uf_name := n; uf_validators := [InputRequired]; uf_inline := [] |} f c
  = (Ok {| name := name f; data := data f; errors := errs_required (data f) |}, c).
Proof.
  unfold Field_validate, errs_required, InputRequired. simpl.
  destruct (String.eqb (data f) EmptyString); reflexivity.
Qed.

Lemma Field_validate_length (form : Form) (n : string) (a b : nat)
      (f : field) (c : ctx) :
  Field_validate form
    {| uf_name := n; uf_validators := [InputRequired; Length a b];
       uf_inline := [] |} f c
  = (Ok {| name := name f; data := data f; errors := errs_length a b (data f) |}, c).
Proof.
  unfold Field_validate, errs_length, length_ok.
  cbn [uf_validators uf_inline app _run_validation_chain name data].
  unfold InputRequired at 1. cbn [data].
  destruct (String.eqb (data f) EmptyString); [reflexivity|].
  unfold Length at 1. cbn [data]. cbv zeta.
  destruct ((a <=? String.length (data f))%nat && (String.length (data f) <=? b)%nat);
    reflexivity.
Qed.

Lemma Field_validate_email (form : Form) (n : string) (f : field) (c : ctx) :
  Field_validate form
    {| uf_name := n; uf_validators := [InputRequired; Email];
       uf_inline := [validate_email] |} f c
  = (Ok {| name := name f; data := data f;
           errors := errs_email (users c) (data f) |}, c).
Proof.
  unfold Field_validate, errs_email, InputRequired, Email, validate_email, taken.
  simpl.
  destruct (String.eqb (data f) EmptyString); [reflexivity|].
  simpl.
  destruct (email_ok (data f)); simpl;
    unfold bind, users_find_one; simpl;
    destruct (truthy (find_one (users c) "email" (VStr (data f)))); reflexivity.
Qed.

Lemma Field_validate_username (form : Form) (n : string) (f : field) (c : ctx) :
  Field_validate form
    {| uf_name := n; uf_validators := [InputRequired; Length 4 20];
       uf_inline := [validate_username] |} f c
  = (Ok {| name := name f; data := data f;
           errors := errs_username (users c) (data f) |}, c).
Proof.
  unfold Field_validate, errs_username, taken, length_ok.
  cbn [uf_validators uf_inline app _run_validation_chain name data].
  unfold InputRequired at 1. cbn [data].
  destruct (String.eqb (data f) EmptyString); [reflexivity|].
  unfold Length at 1. cbn [data]. cbv zeta.
  destruct ((4 <=? String.length (data f))%nat && (String.length (data f) <=? 20)%nat);
    unfold validate_username, bind, users_find_one, ret, raise; cbn [data add_error];
    destruct (truthy (find_one (users c) "username" (VStr (data f)))); reflexivity.
Qed.

Lemma Field_validate_plain (form : Form) (n : string) (f : field) (c : ctx) :
  Field_validate form
    {| uf_name := n; uf_validators := []; uf_inline := [] |} f c
  = (Ok {| name := name f; data := data f; errors := [] |}, c).
Proof. reflexivity. Qed.

Lemma Field_validate_csrf (form : Form) (n : string) (r : request)
      (f : field) (c : ctx) :
  Field_validate form
    {| uf_name := n; uf_validators := [csrf_token_check r]; uf_inline := [] |} f c
  = (Ok {| name := name f; data := data f; errors := errs_csrf r |}, c).
Proof.
  unfold Field_validate, errs_csrf, csrf_token_check. simpl.
  destruct (csrf_error r); reflexivity.
Qed.

Lemma validate_fields_cons (form : Form) (u : unbound_field) (f f' : field)
      (l : list (unbound_field * field)) (c : ctx) :
  Field_validate form u f c = (Ok f', c) ->
  validate_fields form ((u, f) :: l) c =
  match validate_fields form l c with
  | (Ok rest, c') => (Ok (f' :: fst rest, no_errors f' && snd rest), c')
  | (Raise e, c') => (Raise e, c')
  end.
Proof.
  intro E. simpl. unfold bind at 1. rewrite E.
  unfold bind. destruct (validate_fields form l c) as [[rest|e] c']; reflexivity.
Qed.

Lemma no_errors_required (n s : string) :
  no_errors {| name := n; data := s; errors := errs_required s |}
  = negb (String.eqb s EmptyString).
Proof. unfold no_errors, errs_required. simpl. now destruct (String.eqb s EmptyString). Qed.

Lemma no_errors_length (n s : string) (a b : nat) :
  no_errors {| name := n; data := s; errors := errs_length a b s |}
  = negb (String.eqb s EmptyString) && length_ok a b s.
Proof.
  unfold no_errors, errs_length. simpl.
  destruct (String.eqb s EmptyString); [reflexivity|]. now destruct (length_ok a b s).
Qed.

Lemma no_errors_email (c : Collection) (n s : string) :
  no_errors {| name := n; data := s; errors := errs_email c s |}
  = negb (String.eqb s EmptyString) && email_ok s && negb (taken c "email" s).
Proof.
  unfold no_errors, errs_email. simpl.
  destruct (String.eqb s EmptyString); [reflexivity|].
  now destruct (email_ok s), (taken c "email" s).
Qed.

Lemma no_errors_username (c : Collection) (n s : string) :
  no_errors {| name := n; data := s; errors := errs_username c s |}
  = negb (String.eqb s EmptyString) && length_ok 4 20 s && negb (taken c "username" s).
Proof.
  unfold no_errors, errs_username. simpl.
  destruct (String.eqb s EmptyString); [reflexivity|].
  now destruct (length_ok 4 20 s), (taken c "username" s).
Qed.

Lemma no_errors_csrf (n s : string) (r : request) :
  no_errors {| name := n; data := s; errors := errs_csrf r |}
  = match csrf_error r with None => true | Some _ => false end.
Proof. unfold no_errors, errs_csrf. simpl. now destruct (csrf_error r). Qed.

(** Validation of a submitted registration form reads the store and
    changes nothing; it accepts exactly under [register_accepts]. *)
Lemma validate_RegisterForm (c : ctx) (r : request) :
  meth r = POST ->
  validate_on_submit (RegisterForm r) r (bind_form (RegisterForm r) r) c
  = (Ok (validated_RegisterForm (users c) r, register_accepts (users c) r), c).
Proof.
  intro Hm.
  unfold validate_on_submit, bind_form, register_accepts, is_submitted.
  rewrite Hm. unfold RegisterForm. cbn [method_eqb map combine uf_name andb].
  match goal with |- context [validate_fields ?f _ _] => set (form := f) end.
  erewrite validate_fields_cons by apply Field_validate_required.
  erewrite validate_fields_cons by apply Field_validate_required.
  erewrite validate_fields_cons by apply Field_validate_email.
  erewrite validate_fields_cons by apply Field_validate_username.
  erewrite validate_fields_cons by apply Field_validate_length.
  erewrite validate_fields_cons by apply Field_validate_plain.
  erewrite validate_fields_cons by apply Field_validate_csrf.
  cbn [validate_fields ret fst snd name data].
  rewrite !no_errors_required, no_errors_email, no_errors_username,
    no_errors_length, no_errors_csrf.
  unfold validated_RegisterForm, submitted.
  cbn [no_errors errors].
  rewrite ?andb_true_l, ?andb_true_r, !andb_assoc, ?andb_true_r. reflexivity.
Qed.

Lemma validate_LoginForm (c : ctx) (r : request) :
  meth r = POST ->
  validate_on_submit (LoginForm r) r (bind_form (LoginForm r) r) c
  = (Ok (validated_LoginForm r, login_accepts r), c).
Proof.
  intro Hm.
  unfold validate_on_submit, bind_form, login_accepts, is_submitted.
  rewrite Hm. unfold LoginForm. cbn [method_eqb map combine uf_name andb].
  match goal with |- context [validate_fields ?f _ _] => set (form := f) end.
  erewrite validate_fields_cons by apply Field_validate_length.
  erewrite validate_fields_cons by apply Field_validate_length.
  erewrite validate_fields_cons by apply Field_validate_plain.
  erewrite validate_fields_cons by apply Field_validate_csrf.
  cbn [validate_fields ret fst snd name data].
  rewrite !no_errors_length, no_errors_csrf.
  unfold validated_LoginForm, submitted.
  cbn [no_errors errors].
  rewrite ?andb_true_l, ?andb_true_r, !andb_assoc, ?andb_true_r. reflexivity.
Qed.

Lemma validate_not_submitted (cls : list unbound_field) (c : ctx) (r : request) :
  meth r = GET ->
  validate_on_submit cls r (bind_form cls r) c = (Ok (bind_form cls r, false), c).
Proof.
  intro Hm. unfold validate_on_submit, is_submitted. rewrite Hm. reflexivity.
Qed.


(** ** Computations that only read the context *)

Lemma readonly_ret {A} (a : A) : readonly (ret a).
Proof. intro c. reflexivity. Qed.

Lemma readonly_raise {A} (e : exn) : readonly (@raise A e).
Proof. intro c. reflexivity. Qed.

Lemma readonly_lift {A} (o : outcome A) : readonly (lift o).
Proof. intro c. reflexivity. Qed.

Lemma readonly_find_one (k : string) (v : value) : readonly (users_find_one k v).
Proof. intro c. reflexivity. Qed.

Lemma readonly_bind {A B} (m : M A) (k : A -> M B) :
  readonly m -> (forall a, readonly (k a)) -> readonly (bind m k).
Proof.
  intros Hm Hk c. unfold bind. specialize (Hm c).
  destruct (m c) as [[a|e] c']; simpl in Hm; subst c'.
  - apply Hk.
  - reflexivity.
Qed.

Lemma readonly_load_user (uid : string) : readonly (load_user uid).
Proof.
  unfold load_user.
  apply readonly_bind; [apply readonly_lift|]. intro oid.
  apply readonly_bind; [apply readonly_find_one|]. intro user_data.
  destruct (truthy user_data); [|apply readonly_ret].
  destruct user_data; [|apply readonly_ret].
  apply readonly_bind; [apply readonly_lift|]. intro. apply readonly_ret.
Qed.

Lemma readonly_current_user : readonly current_user.
Proof.
  intro c. unfold current_user.
  destruct (user_id (session c)) as [uid|]; [|reflexivity].
  apply readonly_bind; [apply readonly_load_user|].
  intros [u|]; apply readonly_ret.
Qed.

Lemma url_for_login (c : ctx) : url_for "login" c = (Ok "/login", c).
Proof. reflexivity. Qed.

Lemma url_for_dashboard (c : ctx) : url_for "dashboard" c = (Ok "/dashboard", c).
Proof. reflexivity. Qed.

(** ** Dispatch to the five views *)

Lemma handle_dashboard (c : ctx) (r : request) :
  path r = "/dashboard" -> handle c r = served dashboard c r.
Proof. intro Hp. unfold handle. rewrite Hp. now destruct (meth r). Qed.

Lemma handle_logout (c : ctx) (r : request) :
  path r = "/logout" -> handle c r = served logout c r.
Proof. intro Hp. unfold handle. rewrite Hp. now destruct (meth r). Qed.

Lemma handle_login (c : ctx) (r : request) :
  path r = "/login" -> handle c r = served login c r.
Proof. intro Hp. unfold handle. rewrite Hp. now destruct (meth r). Qed.

Lemma handle_register (c : ctx) (r : request) :
  path r = "/register" -> handle c r = served register c r.
Proof. intro Hp. unfold handle. rewrite Hp. now destruct (meth r). Qed.

(** ** The access gate *)

Lemma login_required_anonymous (c : ctx) (r : request) (view : M response) :
  current_user c = (Ok AnonymousUser, c) ->
  login_required r view c =
  (Ok (Redirect "/login" (Some (path r))),
   flashed c "message" "Please log in to access this page.").
Proof.
  intro Hu. unfold login_required, bind. rewrite Hu. reflexivity.
Qed.

Lemma login_required_raises (c : ctx) (r : request) (view : M response) (e : exn) :
  current_user c = (Raise e, c) ->
  login_required r view c = (Raise e, c).
Proof.
  intro Hu. unfold login_required, bind. rewrite Hu. reflexivity.
Qed.

Lemma login_required_logged_in (c : ctx) (r : request) (view : M response)
      (u : User.t) :
  current_user c = (Ok (LoggedIn u), c) ->
  login_required r view c = view c.
Proof.
  intro Hu. unfold login_required, bind. rewrite Hu. reflexivity.
Qed.

Lemma gate_anonymous (c : ctx) (r : request) :
  protected r ->
  current_user c = (Ok AnonymousUser, c) ->
  handle c r = (Redirect "/login" (Some (path r)),
                flashed c "message" "Please log in to access this page.").
Proof.
  intros [Hp|Hp] Hu.
  - rewrite (handle_dashboard _ _ Hp). unfold served, dashboard.
    now rewrite (login_required_anonymous _ _ _ Hu).
  - rewrite (handle_logout _ _ Hp). unfold served, logout.
    now rewrite (login_required_anonymous _ _ _ Hu).
Qed.

Lemma gate_raises (c : ctx) (r : request) (e : exn) :
  protected r ->
  current_user c = (Raise e, c) ->
  handle c r = (InternalServerError e, c).
Proof.
  intros [Hp|Hp] Hu.
  - rewrite (handle_dashboard _ _ Hp). unfold served, dashboard.
    now rewrite (login_required_raises _ _ _ _ Hu).
  - rewrite (handle_logout _ _ Hp). unfold served, logout.
    now rewrite (login_required_raises _ _ _ _ Hu).
Qed.

(** C1.  A request to [/dashboard] or [/logout] whose session resolves to
    the anonymous user is answered by a redirect to [/login] (the
    requested path in the [next] parameter): the dashboard is not
    rendered, the session's user binding and the store are left as they
    were. *)
Theorem anonymous_is_redirected_to_login (c : ctx) (r : request) :
  protected r ->
  current_user c = (Ok AnonymousUser, c) ->
  fst (handle c r) = Redirect "/login" (Some (path r))
  /\ (forall form, fst (handle c r) <> Render "dashboard.html" form)
  /\ user_id (session (snd (handle c r))) = user_id (session c)
  /\ errors_flashed (session (snd (handle c r))) = errors_flashed (session c)
  /\ users (snd (handle c r)) = users c.
Proof.
  intros Hp Hu. rewrite (gate_anonymous _ _ Hp Hu). simpl.
  repeat split; try reflexivity.
  - intros form E. discriminate E.
  - unfold errors_flashed. simpl. rewrite filter_app. simpl. apply app_nil_r.
Qed.

(** ** Session resolution *)

Lemma load_user_not_found (c : ctx) (uid : string) (oid : value) :
  ObjectId uid = Ok oid ->
  find_one (users c) "_id" oid = None ->
  load_user uid c = (Ok None, c).
Proof.
  intros Ho Hf. unfold load_user, bind, lift, users_find_one.
  rewrite Ho, Hf. reflexivity.
Qed.

Lemma ObjectId_rejects (uid : string) :
  ObjectId_accepts uid = false -> ObjectId uid = Raise (InvalidId uid).
Proof.
  unfold ObjectId_accepts, ObjectId.
  destruct (String.length uid =? 24)%nat; [|reflexivity].
  destruct (bytes_fromhex uid); [discriminate|reflexivity].
Qed.

Lemma ObjectId_accepted (uid : string) :
  ObjectId_accepts uid = true -> exists oid, ObjectId uid = Ok oid.
Proof.
  unfold ObjectId_accepts, ObjectId.
  destruct (String.length uid =? 24)%nat; [|discriminate].
  destruct (bytes_fromhex uid) as [bs|]; [|discriminate].
  now exists (oid_of_bytes bs).
Qed.

Lemma hex_not_space (c : ascii) (d : N) :
  hex_value c = Some d -> is_space c = false.
Proof.
  destruct c as [b0 b1 b2 b3 b4 b5 b6 b7].
  destruct b0, b1, b2, b3, b4, b5, b6, b7; vm_compute; intro E;
    first [reflexivity | discriminate E].
Qed.

Lemma fromhex_hex (s : string) (a b : N) :
  fromhex s a <> None -> fromhex s b <> None.
Proof.
  revert a b. induction s as [|c s IH]; intros a b; simpl; [discriminate|].
  destruct (hex_value c); [apply IH | auto].
Qed.

(** On a string of hexadecimal digits, [bytes.fromhex] reads one byte for
    every two digits. *)
Lemma bytes_fromhex_digits (k : nat) (s : string) (a : N) :
  String.length s = 2 * k ->
  fromhex s a <> None ->
  exists bs, bytes_fromhex s = Some bs /\ List.length bs = k.
Proof.
  revert s a. induction k as [|k IH]; intros s a Hl Hh.
  - destruct s; [|discriminate Hl]. now exists [].
  - destruct s as [|c s]; [discriminate Hl|].
    destruct s as [|c' s]; [simpl in Hl; lia|].
    cbn [fromhex] in Hh. cbn [bytes_fromhex].
    destruct (hex_value c) as [top|] eqn:Ec; [|now elim Hh].
    destruct (hex_value c') as [bot|] eqn:Ec'; [|now elim Hh].
    rewrite (hex_not_space _ _ Ec).
    destruct (IH s _ ltac:(simpl in Hl; lia) Hh) as [bs [Hb Hn]].
    rewrite Hb. eexists. split; [reflexivity|]. simpl. now rewrite Hn.
Qed.

Lemma ObjectId_valid (uid : string) :
  is_valid uid = true -> exists o, ObjectId uid = Ok (VOid o).
Proof.
  unfold is_valid, ObjectId. intro Hv. apply andb_prop in Hv.
  destruct Hv as [Hl Hh]. rewrite Hl. apply Nat.eqb_eq in Hl.
  destruct (bytes_fromhex_digits 12 uid 0%N Hl) as [bs [Hb Hn]].
  { destruct (fromhex uid 0); [discriminate|discriminate Hh]. }
  rewrite Hb. unfold oid_of_bytes. rewrite Hn. now eexists.
Qed.

Lemma is_valid_accepted (uid : string) :
  is_valid uid = true -> ObjectId_accepts uid = true.
Proof.
  intro Hv. destruct (ObjectId_valid _ Hv) as [o Ho].
  unfold ObjectId in Ho. unfold ObjectId_accepts.
  destruct (String.length uid =? 24)%nat; [|discriminate Ho].
  now destruct (bytes_fromhex uid).
Qed.

Lemma current_user_of_session (c : ctx) (uid : string) (o : outcome (option User.t)) :
  user_id (session c) = Some uid ->
  load_user uid c = (o, c) ->
  current_user c =
  (match o with
   | Ok (Some u) => Ok (LoggedIn u)
   | Ok None => Ok AnonymousUser
   | Raise e => Raise e
   end, c).
Proof.
  intros Hs Hl. unfold current_user, bind. rewrite Hs, Hl.
  destruct o as [[u|]|e]; reflexivity.
Qed.

(** C2.  When the session-bound identifier is well formed and the store
    holds no record under it, the user loader returns [None], the current
    user is the anonymous one, and a protected route answers with the
    redirect to [/login]. *)
Theorem missing_record_resolves_to_anonymous
        (c : ctx) (uid : string) (oid : N) :
  ObjectId uid = Ok (VOid oid) ->
  find_one (users c) "_id" (VOid oid) = None ->
  load_user uid c = (Ok None, c)
  /\ (user_id (session c) = Some uid ->
      current_user c = (Ok AnonymousUser, c)
      /\ forall r, protected r ->
                   fst (handle c r) = Redirect "/login" (Some (path r))).
Proof.
  intros Ho Hf.
  pose proof (load_user_not_found _ _ _ Ho Hf) as Hl.
  split; [exact Hl|]. intro Hs.
  pose proof (current_user_of_session _ _ _ Hs Hl) as Hu. simpl in Hu.
  split; [exact Hu|]. intros r Hp.
  now rewrite (gate_anonymous _ _ Hp Hu).
Qed.

Lemma User_of_document_no_InvalidId (d : document) (s : string) :
  User_of_document d <> Raise (InvalidId s).
Proof.
  unfold User_of_document, getitem.
  destruct (get "first_name" d); [|discriminate].
  destruct (get "last_name" d); [|discriminate].
  destruct (get "email" d); [|discriminate].
  destruct (get "username" d); [|discriminate].
  destruct (get "password" d); [|discriminate].
  destruct (get "_id" d); discriminate.
Qed.

(** With an identifier that [ObjectId] accepts, a well-formed one in
    particular, the loader never raises [InvalidId]. *)
Lemma load_user_well_formed (c : ctx) (uid : string) :
  ObjectId_accepts uid = true ->
  forall s, fst (load_user uid c) <> Raise (InvalidId s).
Proof.
  intros Hv s. destruct (ObjectId_accepted _ Hv) as [oid Ho].
  unfold load_user, bind, lift, users_find_one. rewrite Ho.
  destruct (find_one (users c) "_id" oid) as [d|];
    [|simpl; discriminate].
  destruct (truthy (Some d)); [|simpl; discriminate].
  pose proof (User_of_document_no_InvalidId d s) as Hd.
  destruct (User_of_document d) as [u|e]; simpl; [discriminate|].
  congruence.
Qed.

(** What [ObjectId] does not accept: a string of another length than 24,
    and a string with a character that is neither a hexadecimal digit nor
    whitespace. *)
Lemma wrong_length_rejected (uid : string) :
  String.length uid <> 24 -> ObjectId_accepts uid = false.
Proof.
  intro Hl. unfold ObjectId_accepts. apply Nat.eqb_neq in Hl. now rewrite Hl.
Qed.

Lemma foreign_character_rejected (uid : string) :
  has_foreign uid = true -> ObjectId_accepts uid = false.
Proof.
  intro Hf. unfold ObjectId_accepts.
  assert (Hn : bytes_fromhex uid = None).
  { remember (String.length uid) as n eqn:Hn.
    assert (Hle : String.length uid <= n) by lia. clear Hn.
    revert uid Hf Hle. induction n as [|n IH]; intros s Hf Hle.
    - destruct s; [discriminate Hf | simpl in Hle; lia].
    - destruct s as [|c s]; [discriminate Hf|].
      cbn [has_foreign] in Hf. cbn [bytes_fromhex]. unfold foreign in Hf.
      destruct (is_space c).
      + apply IH; [exact Hf | simpl in Hle; lia].
      + destruct (hex_value c) as [top|]; [|reflexivity].
        destruct s as [|c' s]; [reflexivity|].
        cbn [has_foreign negb andb orb] in Hf. unfold foreign in Hf.
        destruct (hex_value c') as [bot|] eqn:Ec'; [|reflexivity].
        rewrite (hex_not_space _ _ Ec') in Hf. cbn [negb andb orb] in Hf.
        rewrite (IH s Hf); [reflexivity | simpl in Hle; lia]. }
  rewrite Hn. apply andb_false_r.
Qed.

(** C10, as the code has it.  For a session value that [ObjectId] does not
    accept (its length is not 24, or it has 24 characters that
    [bytes.fromhex] cannot read), [ObjectId(user_id)] raises [InvalidId]
    inside the user loader: the loader does not return [None], resolution
    of the current user raises as well, and a protected route ends in a
    server error, not in the redirect of the anonymous case. *)
Theorem malformed_session_id_raises (c : ctx) (uid : string) :
  ObjectId_accepts uid = false ->
  load_user uid c = (Raise (InvalidId uid), c)
  /\ load_user uid c <> (Ok None, c)
  /\ (user_id (session c) = Some uid ->
      current_user c = (Raise (InvalidId uid), c)
      /\ forall r, protected r ->
                   handle c r = (InternalServerError (InvalidId uid), c)).
Proof.
  intro Hv.
  assert (Hl : load_user uid c = (Raise (InvalidId uid), c)).
  { unfold load_user, bind, lift. now rewrite (ObjectId_rejects _ Hv). }
  split; [exact Hl|]. split; [rewrite Hl; discriminate|].
  intro Hs.
  pose proof (current_user_of_session _ _ _ Hs Hl) as Hu. simpl in Hu.
  split; [exact Hu|]. intros r Hp. now apply gate_raises.
Qed.

(** ** Logout *)

Lemma logout_logged_in (c : ctx) (r : request) (u : User.t) :
  path r = "/logout" ->
  current_user c = (Ok (LoggedIn u), c) ->
  handle c r = (Redirect "/login" None, logged_out c).
Proof.
  intros Hp Hu. rewrite (handle_logout _ _ Hp). unfold served, logout.
  rewrite (login_required_logged_in _ _ _ _ Hu). reflexivity.
Qed.

(** C9.  Logout called twice in a row by a logged-in client: the first
    call removes the user binding from the session and redirects to
    [/login]; the second, now without a session, raises nothing and is
    redirected to [/login] by the access gate. *)
Theorem logout_twice (c : ctx) (r1 r2 : request) (u : User.t) :
  path r1 = "/logout" ->
  path r2 = "/logout" ->
  current_user c = (Ok (LoggedIn u), c) ->
  fst (handle c r1) = Redirect "/login" None
  /\ user_id (session (snd (handle c r1))) = None
  /\ fst (handle (snd (handle c r1)) r2) = Redirect "/login" (Some "/logout")
  /\ fst (run c [r1; r2])
     = [Redirect "/login" None; Redirect "/login" (Some "/logout")].
Proof.
  intros Hp1 Hp2 Hu.
  pose proof (logout_logged_in _ _ _ Hp1 Hu) as H1.
  assert (H2 : handle (logged_out c) r2 =
               (Redirect "/login" (Some "/logout"),
                flashed (logged_out c) "message"
                        "Please log in to access this page.")).
  { rewrite <- Hp2. apply gate_anonymous; [right; exact Hp2 | reflexivity]. }
  rewrite H1. simpl fst. simpl snd. rewrite H2.
  repeat split. simpl. rewrite H1, H2. reflexivity.
Qed.

(** ** Registration *)

Lemma printed_nil (c : ctx) : printed c [] = c.
Proof. destruct c. unfold printed. simpl. now rewrite app_nil_r. Qed.

Lemma printed_printed (c : ctx) (l1 l2 : list string) :
  printed (printed c l1) l2 = printed c (l1 ++ l2).
Proof. unfold printed. simpl. now rewrite app_assoc. Qed.

Lemma print_errors_prints (field : string) (errors : list string) (c : ctx) :
  print_errors field errors c
  = (Ok tt, printed c (map (fun error => "Error in the " ++ field ++ " field - "
                                         ++ error) errors)).
Proof.
  revert c. induction errors as [|e errors IH]; intro c.
  - simpl. now rewrite printed_nil.
  - cbn [print_errors map]. unfold bind.
    change (print ?l c) with (Ok tt, printed c [l]). cbv beta iota.
    rewrite IH, printed_printed. reflexivity.
Qed.

Lemma print_form_errors_prints (items : list (string * list string)) (c : ctx) :
  print_form_errors items c = (Ok tt, printed c (error_lines items)).
Proof.
  revert c. induction items as [|[field errors] items IH]; intro c.
  - simpl. now rewrite printed_nil.
  - cbn [print_form_errors error_lines flat_map fst snd]. unfold bind.
    rewrite print_errors_prints. cbv beta iota.
    rewrite IH, printed_printed. reflexivity.
Qed.

Lemma register_accepts_submitted (c : Collection) (r : request) :
  register_accepts c r = true -> meth r = POST.
Proof.
  unfold register_accepts, is_submitted. destruct (meth r); [discriminate|reflexivity].
Qed.

Lemma register_accepts_facts (c : Collection) (r : request) :
  register_accepts c r = true ->
  taken c "email" (submitted r "email") = false
  /\ taken c "username" (submitted r "username") = false
  /\ length_ok 8 20 (submitted r "password") = true.
Proof.
  unfold register_accepts. intro E.
  repeat match type of E with
         | _ && _ = true => apply andb_prop in E; destruct E as [E ?]
         end.
  repeat match goal with
         | X : _ && _ = true |- _ => apply andb_prop in X; destruct X
         | X : negb _ = true |- _ => apply negb_true_iff in X
         end.
  auto.
Qed.

(** A registration that passes validation: the password is hashed, the
    new user is saved, the client is sent to the login page. *)
Lemma register_accepted (c : ctx) (r : request) :
  register_accepts (users c) r = true ->
  register r c = (Ok (Redirect "/login" None), registered c r).
Proof.
  intro Ha. pose proof (register_accepts_submitted _ _ Ha) as Hm.
  unfold register. unfold bind at 1.
  rewrite (validate_RegisterForm c r Hm). cbn [fst snd]. rewrite Ha.
  reflexivity.
Qed.

(** A registration that does not: the errors are printed and the form is
    rendered again. *)
Lemma register_rejected (c : ctx) (r : request) :
  register_accepts (users c) r = false ->
  exists form,
    register r c = (Ok (Render "register.html" (Some form)),
                    printed c (register_log form))
    /\ (meth r = POST -> form = validated_RegisterForm (users c) r).
Proof.
  intro Ha. unfold register. unfold bind at 1.
  destruct (meth r) eqn:Hm.
  - rewrite (validate_not_submitted _ c r Hm). cbn [fst snd].
    exists (bind_form (RegisterForm r) r). split; [|discriminate].
    unfold register_log, bind.
    destruct (form_errors (bind_form (RegisterForm r) r)) as [|i items] eqn:E.
    + simpl. now rewrite printed_nil.
    + change (print ?l c) with (Ok tt, printed c [l]). cbv beta iota.
      rewrite print_form_errors_prints, printed_printed. reflexivity.
  - rewrite (validate_RegisterForm c r Hm). cbn [fst snd]. rewrite Ha.
    exists (validated_RegisterForm (users c) r). split; [|reflexivity].
    unfold register_log, bind.
    destruct (form_errors (validated_RegisterForm (users c) r)) as [|i items] eqn:E.
    + simpl. now rewrite printed_nil.
    + change (print ?l c) with (Ok tt, printed c [l]). cbv beta iota.
      rewrite print_form_errors_prints, printed_printed. reflexivity.
Qed.

Lemma handle_register_accepted (c : ctx) (r : request) :
  path r = "/register" ->
  register_accepts (users c) r = true ->
  handle c r = (Redirect "/login" None, registered c r).
Proof.
  intros Hp Ha. rewrite (handle_register _ _ Hp). unfold served.
  now rewrite (register_accepted _ _ Ha).
Qed.

Lemma handle_register_rejected (c : ctx) (r : request) :
  path r = "/register" ->
  register_accepts (users c) r = false ->
  exists form,
    handle c r = (Render "register.html" (Some form), printed c (register_log form))
    /\ (meth r = POST -> form = validated_RegisterForm (users c) r).
Proof.
  intros Hp Ha. rewrite (handle_register _ _ Hp). unfold served.
  destruct (register_rejected _ _ Ha) as [form [E Hf]].
  exists form. now rewrite E.
Qed.

(** C5.  A registration that passes validation is answered by the
    redirect to [/login], and the session is exactly what it was: no user
    is bound to it, so a client that was anonymous still is. *)
Theorem registration_does_not_log_in (c : ctx) (r : request) :
  path r = "/register" ->
  register_accepts (users c) r = true ->
  fst (handle c r) = Redirect "/login" None
  /\ session (snd (handle c r)) = session c
  /\ (user_id (session c) = None ->
      fst (current_user (snd (handle c r))) = Ok AnonymousUser).
Proof.
  intros Hp Ha. rewrite (handle_register_accepted _ _ Hp Ha). simpl.
  repeat split. intro Hs. unfold current_user. simpl. now rewrite Hs.
Qed.

(** C6.  A registration request inserts exactly one record when
    validation passes, appended to the records already there, and leaves
    the store untouched when it does not. *)
Theorem registration_inserts_one_or_none (c : ctx) (r : request) :
  path r = "/register" ->
  users (snd (handle c r))
  = (if register_accepts (users c) r
     then insert_one (users c) (tl (new_document (users c) r))
     else users c)
  /\ docs (users (snd (handle c r)))
     = (if register_accepts (users c) r
        then (docs (users c) ++ [new_document (users c) r])%list
        else docs (users c))
  /\ List.length (docs (users (snd (handle c r))))
     = (if register_accepts (users c) r then 1 else 0)
       + List.length (docs (users c)).
Proof.
  intro Hp. destruct (register_accepts (users c) r) eqn:Ha.
  - rewrite (handle_register_accepted _ _ Hp Ha). simpl.
    repeat split. rewrite length_app. simpl. lia.
  - destruct (handle_register_rejected _ _ Hp Ha) as [form [E _]].
    rewrite E. simpl. repeat split.
Qed.

Lemma length_ok_upper (a b : nat) (s : string) :
  length_ok a b s = true -> String.length s <= b.
Proof.
  unfold length_ok. intro E. apply andb_prop in E. destruct E as [_ E].
  now apply Nat.leb_le in E.
Qed.

(** C7, as the code has it.  The record a registration persists has the
    fields [_id], [first_name], [last_name], [email], [username],
    [password], in this order; the field [password] holds the bcrypt hash
    of the submitted password, which, being 60 characters long, is not the
    submitted password. *)
Theorem persisted_record_shape (c : ctx) (r : request) :
  path r = "/register" ->
  register_accepts (users c) r = true ->
  String.length (generate_password_hash (salt r) (submitted r "password")) = 60 ->
  exists d,
    docs (users (snd (handle c r))) = (docs (users c) ++ [d])%list
    /\ keys d = stored_shape
    /\ same_fields d stored_shape
    /\ get "password" d
       = Some (VStr (generate_password_hash (salt r) (submitted r "password")))
    /\ get "password" d <> Some (VStr (submitted r "password"))
    /\ get "password_hash" d = None.
Proof.
  intros Hp Ha Hlen. exists (new_document (users c) r).
  rewrite (handle_register_accepted _ _ Hp Ha).
  split; [reflexivity|]. split; [reflexivity|].
  split; [intro k; reflexivity|]. split; [reflexivity|].
  split; [|reflexivity].
  cbn. intro E. injection E as E.
  destruct (register_accepts_facts _ _ Ha) as [_ [_ Hl]].
  apply length_ok_upper in Hl. rewrite E in Hlen. lia.
Qed.

(** ** Login *)

Lemma login_failed_flashes (form : Form) (c : ctx) :
  login_failed form c
  = (Ok (Render "login.html" (Some form)),
     flashed c "error" "Invalid username or password").
Proof. reflexivity. Qed.

Lemma login_unknown_user (c : ctx) (r : request) :
  login_accepts r = true ->
  find_one (users c) "username" (VStr (submitted r "username")) = None ->
  login r c = (Ok (Render "login.html" (Some (validated_LoginForm r))),
               flashed c "error" "Invalid username or password").
Proof.
  intros Ha Hf.
  assert (Hm : meth r = POST).
  { unfold login_accepts, is_submitted in Ha. now destruct (meth r). }
  unfold login. unfold bind at 1.
  rewrite (validate_LoginForm c r Hm). cbn [fst snd]. rewrite Ha.
  unfold bind, users_find_one.
  change (field_data (validated_LoginForm r) "username")
    with (submitted r "username").
  rewrite Hf. apply login_failed_flashes.
Qed.

Lemma login_wrong_password (c : ctx) (r : request) (d : document) (h : string) :
  login_accepts r = true ->
  find_one (users c) "username" (VStr (submitted r "username")) = Some d ->
  get "password" d = Some (VStr h) ->
  check_password_hash h (submitted r "password") = false ->
  login r c = (Ok (Render "login.html" (Some (validated_LoginForm r))),
               flashed c "error" "Invalid username or password").
Proof.
  intros Ha Hf Hg Hc.
  assert (Hm : meth r = POST).
  { unfold login_accepts, is_submitted in Ha. now destruct (meth r). }
  unfold login. unfold bind at 1.
  rewrite (validate_LoginForm c r Hm). cbn [fst snd]. rewrite Ha.
  unfold bind, users_find_one, lift, getitem.
  change (field_data (validated_LoginForm r) "username")
    with (submitted r "username").
  change (field_data (validated_LoginForm r) "password")
    with (submitted r "password").
  rewrite Hf.
  destruct (truthy (Some d)); [|apply login_failed_flashes].
  rewrite Hg. cbn [bcrypt_check]. rewrite Hc. apply login_failed_flashes.
Qed.

(** C4.  The same valid login submission, once against a store without
    the user name and once against a store where the user name exists
    and the password does not verify: both are answered by the login page
    with the same form, both flash the one message "Invalid username or
    password", and both leave the session without a user binding it did
    not have; the two responses and the two sessions are equal. *)
Theorem login_failures_are_indistinguishable
        (c1 c2 : ctx) (r : request) (d : document) (h : string) :
  path r = "/login" ->
  login_accepts r = true ->
  session c1 = session c2 ->
  find_one (users c1) "username" (VStr (submitted r "username")) = None ->
  find_one (users c2) "username" (VStr (submitted r "username")) = Some d ->
  get "password" d = Some (VStr h) ->
  check_password_hash h (submitted r "password") = false ->
  fst (handle c1 r) = Render "login.html" (Some (validated_LoginForm r))
  /\ fst (handle c2 r) = fst (handle c1 r)
  /\ session (snd (handle c2 r)) = session (snd (handle c1 r))
  /\ flashes (session (snd (handle c1 r)))
     = (flashes (session c1) ++ [("error", "Invalid username or password")])%list
  /\ user_id (session (snd (handle c1 r))) = user_id (session c1)
  /\ users (snd (handle c1 r)) = users c1
  /\ users (snd (handle c2 r)) = users c2.
Proof.
  intros Hp Ha Hs H1 H2 Hg Hc.
  rewrite !(handle_login _ _ Hp). unfold served.
  rewrite (login_unknown_user c1 r Ha H1).
  rewrite (login_wrong_password c2 r d h Ha H2 Hg Hc).
  simpl. rewrite Hs. repeat split.
Qed.

(** ** Uniqueness of user names and e-mail addresses *)

Lemma keeps_ret {A} (a : A) : keeps_users (ret a).
Proof. intro c. reflexivity. Qed.

Lemma keeps_readonly {A} (m : M A) : readonly m -> keeps_users m.
Proof. intros Hm c. now rewrite Hm. Qed.

Lemma keeps_flash (message category : string) : keeps_users (flash message category).
Proof. intro c. reflexivity. Qed.

Lemma keeps_set_user_id (u : option string) : keeps_users (set_user_id u).
Proof. intro c. reflexivity. Qed.

Lemma keeps_bind {A B} (m : M A) (k : A -> M B) :
  keeps_users m -> (forall a, keeps_users (k a)) -> keeps_users (bind m k).
Proof.
  intros Hm Hk c. unfold bind. specialize (Hm c).
  destruct (m c) as [[a|e] c']; simpl in Hm.
  - now rewrite Hk.
  - exact Hm.
Qed.

Lemma keeps_url_for (endpoint : string) : keeps_users (url_for endpoint).
Proof.
  unfold url_for.
  destruct (find (fun r => String.eqb (snd r) endpoint) url_map); intro; reflexivity.
Qed.

Lemma keeps_login_failed (form : Form) : keeps_users (login_failed form).
Proof. intro c. reflexivity. Qed.

Lemma keeps_login_user (u : User.t) : keeps_users (login_user u).
Proof. intro c. reflexivity. Qed.

Lemma keeps_validate_LoginForm (r : request) :
  keeps_users (validate_on_submit (LoginForm r) r (bind_form (LoginForm r) r)).
Proof.
  intro c. destruct (meth r) eqn:Hm.
  - now rewrite (validate_not_submitted _ c r Hm).
  - now rewrite (validate_LoginForm c r Hm).
Qed.

Lemma keeps_login (r : request) : keeps_users (login r).
Proof.
  unfold login.
  apply keeps_bind; [apply keeps_validate_LoginForm|]. intro v.
  destruct (snd v); [|apply keeps_ret].
  apply keeps_bind; [apply keeps_readonly, readonly_find_one|].
  intros [d|]; [|apply keeps_login_failed].
  destruct (truthy (Some d)); [|apply keeps_login_failed].
  apply keeps_bind; [apply keeps_readonly, readonly_lift|]. intro h.
  apply keeps_bind; [apply keeps_readonly, readonly_lift|].
  intros [|]; [|apply keeps_login_failed].
  apply keeps_bind; [apply keeps_readonly, readonly_lift|]. intro u.
  apply keeps_bind; [apply keeps_login_user|]. intros _.
  apply keeps_bind; [apply keeps_url_for|]. intro. apply keeps_ret.
Qed.

Lemma keeps_unauthorized (r : request) : keeps_users (unauthorized login_manager r).
Proof. intro c. reflexivity. Qed.

Lemma keeps_login_required (r : request) (view : M response) :
  keeps_users view -> keeps_users (login_required r view).
Proof.
  intro Hv. unfold login_required.
  apply keeps_bind; [apply keeps_readonly, readonly_current_user|].
  intro u. destruct (negb (is_authenticated u));
    [apply keeps_unauthorized | exact Hv].
Qed.

Lemma keeps_dashboard (r : request) : keeps_users (dashboard r).
Proof. apply keeps_login_required, keeps_ret. Qed.

Lemma keeps_logout (r : request) : keeps_users (logout r).
Proof.
  apply keeps_login_required.
  apply keeps_bind; [intro c; reflexivity|]. intros _.
  apply keeps_bind; [apply keeps_url_for|]. intro. apply keeps_ret.
Qed.

Lemma served_keeps (v : request -> M response) (c : ctx) (r : request) :
  keeps_users (v r) -> users (snd (served v c r)) = users c.
Proof.
  intro Hv. unfold served. specialize (Hv c).
  destruct (v r c) as [[resp|e] c']; exact Hv.
Qed.

(** Only an accepted registration changes the collection. *)
Lemma handle_users (c : ctx) (r : request) :
  users (snd (handle c r)) = users c
  \/ (path r = "/register"
      /\ register_accepts (users c) r = true
      /\ users (snd (handle c r)) = users (registered c r)).
Proof.
  destruct (String.eqb "/register" (path r)) eqn:Hreg.
  - apply String.eqb_eq in Hreg. symmetry in Hreg.
    destruct (register_accepts (users c) r) eqn:Ha.
    + right. rewrite (handle_register_accepted _ _ Hreg Ha). auto.
    + left. destruct (handle_register_rejected _ _ Hreg Ha) as [form [E _]].
      now rewrite E.
  - left. unfold handle. cbn [find url_map fst snd].
    destruct (String.eqb "/" (path r)).
    { destruct (meth r); reflexivity. }
    destruct (String.eqb "/login" (path r)).
    { destruct (meth r); change (users (snd (served login c r)) = users c);
        apply served_keeps, keeps_login. }
    destruct (String.eqb "/dashboard" (path r)).
    { destruct (meth r); change (users (snd (served dashboard c r)) = users c);
        apply served_keeps, keeps_dashboard. }
    destruct (String.eqb "/logout" (path r)).
    { destruct (meth r); change (users (snd (served logout c r)) = users c);
        apply served_keeps, keeps_logout. }
    rewrite Hreg. reflexivity.
Qed.

Lemma NoDup_snoc {A} (l : list A) (x : A) :
  NoDup l -> ~ In x l -> NoDup (l ++ [x]).
Proof.
  induction 1 as [|y l Hy Hl IH]; intro Hx; simpl.
  - constructor; [intros []|constructor].
  - constructor.
    + rewrite in_app_iff. intros [Hin|[E|[]]]; [now apply Hy|].
      subst. apply Hx. now left.
    + apply IH. intro Hin. apply Hx. now right.
Qed.

(** One request keeps user names and e-mail addresses pairwise
    distinct. *)
Lemma handle_keeps_unique (c : ctx) (r : request) :
  unique_on "username" (users c) ->
  unique_on "email" (users c) ->
  unique_on "username" (users (snd (handle c r)))
  /\ unique_on "email" (users (snd (handle c r))).
Proof.
  intros Hu He. destruct (handle_users c r) as [E|[_ [Ha E]]]; rewrite E.
  - now split.
  - destruct (register_accepts_facts _ _ Ha) as [Hem [Hun _]].
    unfold unique_on, registered. cbn [users docs]. rewrite !map_app.
    split; apply NoDup_snoc; auto.
    + now apply not_taken_not_in.
    + now apply not_taken_not_in.
Qed.

Lemma reachable_unique (col : Collection) :
  reachable col ->
  unique_on "username" col /\ unique_on "email" col.
Proof.
  induction 1 as [n|c r _ [IHu IHe]].
  - split; constructor.
  - now apply handle_keeps_unique.
Qed.

Lemma errors_listed (form : Form) (f : field) :
  In f form -> no_errors f = false -> In (name f) (map fst (form_errors form)).
Proof.
  intros Hin Hne. unfold form_errors. rewrite map_map. cbn [fst].
  apply in_map. apply filter_In. split; [exact Hin|]. now rewrite Hne.
Qed.

(** C3.  In every store that arises from the empty one by serving
    requests, and again after one more request, no two records share a
    user name and no two share an e-mail address.  A submitted
    registration whose user name or e-mail address is already in the
    store is rejected: the registration page is rendered again with an
    error on that field, and nothing is inserted. *)
Theorem registrations_are_unique (c : ctx) (r : request) :
  reachable (users c) ->
  (unique_on "username" (users c) /\ unique_on "email" (users c))
  /\ (unique_on "username" (users (snd (handle c r)))
      /\ unique_on "email" (users (snd (handle c r))))
  /\ (path r = "/register" ->
      meth r = POST ->
      taken (users c) "username" (submitted r "username") = true
      \/ taken (users c) "email" (submitted r "email") = true ->
      users (snd (handle c r)) = users c
      /\ exists form,
           fst (handle c r) = Render "register.html" (Some form)
           /\ (taken (users c) "username" (submitted r "username") = true ->
               In "username" (map fst (form_errors form)))
           /\ (taken (users c) "email" (submitted r "email") = true ->
               In "email" (map fst (form_errors form)))).
Proof.
  intro Hr. pose proof (reachable_unique _ Hr) as [Hu He].
  split; [now split|]. split; [now apply handle_keeps_unique|].
  intros Hp Hm Ht.
  assert (Ha : register_accepts (users c) r = false).
  { destruct (register_accepts (users c) r) eqn:Ha; [|reflexivity].
    destruct (register_accepts_facts _ _ Ha) as [Hem [Hun _]].
    destruct Ht as [Ht|Ht]; congruence. }
  destruct (handle_register_rejected _ _ Hp Ha) as [form [E Hf]].
  rewrite E. cbn [fst snd]. split; [reflexivity|].
  exists form. split; [reflexivity|]. rewrite (Hf Hm).
  split; intro Hk.
  - apply (errors_listed _
             {| name := "username"; data := submitted r "username";
                errors := errs_username (users c) (submitted r "username") |}).
    + simpl. tauto.
    + rewrite no_errors_username, Hk. now rewrite andb_false_r.
  - apply (errors_listed _
             {| name := "email"; data := submitted r "email";
                errors := errs_email (users c) (submitted r "email") |}).
    + simpl. tauto.
    + rewrite no_errors_email, Hk. now rewrite andb_false_r.
Qed.

End Properties.

(* ------------------------------------------------------------------ *)
(** * Properties of the whole application *)

Section Application.

Context `{Bcrypt} `{EmailSyntax}.

(** ** Identifiers: printing and parsing *)

Lemma hex_value_hex_char (d : N) :
  (d < 16)%N -> hex_value (hex_char d) = Some d.
Proof.
  intro Hd. destruct d as [|p]; [reflexivity|].
  do 4 (destruct p as [p|p|]; try reflexivity; try lia).
Qed.

Lemma length_to_hex (n : nat) (o : N) (acc : string) :
  String.length (to_hex n o acc) = n + String.length acc.
Proof.
  revert o acc. induction n as [|n IH]; intros o acc; simpl; [reflexivity|].
  rewrite IH. simpl. lia.
Qed.

Lemma fromhex_to_hex (n : nat) (o a : N) (acc : string) :
  fromhex (to_hex n o acc) a
  = fromhex acc (a * 16 ^ N.of_nat n + o mod 16 ^ N.of_nat n)%N.
Proof.
  revert o a acc. induction n as [|n IH]; intros o a acc.
  - simpl. rewrite N.mod_1_r. f_equal. lia.
  - cbn [to_hex]. rewrite IH. cbn [fromhex].
    rewrite hex_value_hex_char by (apply N.mod_lt; lia).
    f_equal. rewrite Nat2N.inj_succ, N.pow_succ_r'.
    rewrite (N.Div0.mod_mul_r o 16 (16 ^ N.of_nat n)).
    generalize (16 ^ N.of_nat n)%N ((o / 16) mod 16 ^ N.of_nat n)%N (o mod 16)%N.
    intros X Y Z. lia.
Qed.

Lemma is_space_hex_char (d : N) :
  (d < 16)%N -> is_space (hex_char d) = false.
Proof.
  intro Hd. exact (hex_not_space _ _ (hex_value_hex_char d Hd)).
Qed.

Lemma N_of_bytes_snoc (bs : list N) (b : N) :
  N_of_bytes (bs ++ [b]) = (256 * N_of_bytes bs + b)%N.
Proof. unfold N_of_bytes. now rewrite fold_left_app. Qed.

Lemma length_be_bytes (k : nat) (o : N) : List.length (be_bytes k o) = k.
Proof.
  revert o. induction k as [|k IH]; intro o; [reflexivity|].
  cbn [be_bytes]. rewrite length_app, IH. simpl. lia.
Qed.

Lemma N_of_be_bytes (k : nat) (o : N) :
  N_of_bytes (be_bytes k o) = (o mod 256 ^ N.of_nat k)%N.
Proof.
  revert o. induction k as [|k IH]; intro o.
  - simpl. now rewrite N.mod_1_r.
  - cbn [be_bytes]. rewrite N_of_bytes_snoc, IH.
    rewrite Nat2N.inj_succ, N.pow_succ_r'.
    rewrite (N.Div0.mod_mul_r o 256 (256 ^ N.of_nat k)). lia.
Qed.

(** [bytes.fromhex] on the digits [to_hex] prints: one byte for every two
    digits, most significant first. *)
Lemma bytes_fromhex_to_hex (k : nat) (o : N) (acc : string) :
  bytes_fromhex (to_hex (2 * k) o acc)
  = option_map (app (be_bytes k o)) (bytes_fromhex acc).
Proof.
  revert o acc. induction k as [|k IH]; intros o acc.
  - simpl. now destruct (bytes_fromhex acc).
  - replace (2 * S k) with (S (S (2 * k))) by lia. cbn [to_hex].
    rewrite IH. cbn [bytes_fromhex].
    rewrite is_space_hex_char by (apply N.mod_lt; lia).
    rewrite !hex_value_hex_char by (apply N.mod_lt; lia).
    rewrite N.Div0.div_div. change (16 * 16)%N with 256%N.
    assert (E : (16 * ((o / 16) mod 16) + o mod 16 = o mod 256)%N).
    { change 256%N with (16 * 16)%N. rewrite N.Div0.mod_mul_r. lia. }
    rewrite E. cbn [be_bytes].
    destruct (bytes_fromhex acc) as [bs|]; [|reflexivity].
    cbn [option_map]. now rewrite <- app_assoc.
Qed.

Lemma ObjectId_str (o : N) :
  ObjectId (str (VOid o)) = Ok (VOid (o mod 2 ^ 96)%N).
Proof.
  unfold ObjectId. cbn [str]. rewrite length_to_hex.
  cbn [String.length Nat.add Nat.eqb].
  change (to_hex 24 o EmptyString) with (to_hex (2 * 12) o EmptyString).
  rewrite bytes_fromhex_to_hex. cbn [bytes_fromhex option_map].
  unfold oid_of_bytes. rewrite length_app, length_be_bytes.
  cbn [List.length Nat.add Nat.eqb]. rewrite app_nil_r, N_of_be_bytes.
  reflexivity.
Qed.

Lemma is_valid_str (o : N) : is_valid (str (VOid o)) = true.
Proof.
  unfold is_valid. cbn [str]. rewrite length_to_hex.
  cbn [String.length Nat.add Nat.eqb andb].
  rewrite fromhex_to_hex. reflexivity.
Qed.

(** X2.  The identifier [get_id] prints for a user with an [ObjectId] is
    well formed, and [ObjectId] parses it back to the same identifier (to
    its low twelve bytes in general). *)
Theorem get_id_parses_back (u : User.t) (o : N) :
  User._id u = VOid o ->
  is_valid (User.get_id u) = true
  /\ ObjectId (User.get_id u) = Ok (VOid (o mod 2 ^ 96)%N)
  /\ ((o < 2 ^ 96)%N -> ObjectId (User.get_id u) = Ok (VOid o)).
Proof.
  intro Hu. unfold User.get_id. rewrite Hu.
  split; [apply is_valid_str|]. split; [apply ObjectId_str|].
  intro Ho. rewrite ObjectId_str. now rewrite N.mod_small.
Qed.

(** ** The user loader on a stored record *)

Lemma User_of_document_closed (d : document) :
  User_of_document d =
  match first_missing d with
  | Some k => Raise (KeyError k)
  | None => Ok (user_of d)
  end.
Proof.
  unfold User_of_document, first_missing, user_of, value_at, getitem.
  cbn [find constructor_keys].
  destruct (get "first_name" d); [|reflexivity].
  destruct (get "last_name" d); [|reflexivity].
  destruct (get "email" d); [|reflexivity].
  destruct (get "username" d); [|reflexivity].
  destruct (get "password" d); [|reflexivity].
  destruct (get "_id" d); reflexivity.
Qed.

Lemma find_one_matches (c : Collection) (k : string) (v : value) (d : document) :
  find_one c k v = Some d -> In d (docs c) /\ get k d = Some v.
Proof.
  unfold find_one. intro E. apply find_some in E. destruct E as [Hin Hm].
  split; [exact Hin|]. unfold matches in Hm.
  destruct (get k d) as [v'|]; [|discriminate].
  apply value_eqb_eq in Hm. now subst.
Qed.

Lemma find_one_truthy (c : Collection) (k : string) (v : value) (d : document) :
  find_one c k v = Some d -> truthy (Some d) = true.
Proof.
  intro E. pose proof (find_one_nonempty c k v) as Hn. now rewrite E in Hn.
Qed.

Lemma load_user_of_record (c : ctx) (uid : string) (oid : N) (d : document) :
  ObjectId uid = Ok (VOid oid) ->
  find_one (users c) "_id" (VOid oid) = Some d ->
  load_user uid c
  = (match first_missing d with
     | Some k => Raise (KeyError k)
     | None => Ok (Some (user_of d))
     end, c)
  /\ User._id (user_of d) = VOid oid.
Proof.
  intros Ho Hf. split.
  - unfold load_user, bind, lift, users_find_one. rewrite Ho, Hf.
    rewrite (find_one_truthy _ _ _ _ Hf). rewrite User_of_document_closed.
    destruct (first_missing d); reflexivity.
  - destruct (find_one_matches _ _ _ _ Hf) as [_ Hg].
    unfold user_of, value_at. cbn [User._id]. now rewrite Hg.
Qed.

(** X3.  When the identifier is well formed and a record is found under
    it, [load_user] builds the user from the record: it returns the user
    with the record's six values when the record has all six keys, and
    raises [KeyError] for the first key it lacks, in the order the
    constructor call reads them.  The user returned carries the identifier
    that was looked up, so that [get_id] prints an identifier that is well
    formed again. *)
Theorem load_user_found (c : ctx) (uid : string) (oid : N) (d : document) :
  ObjectId uid = Ok (VOid oid) ->
  find_one (users c) "_id" (VOid oid) = Some d ->
  load_user uid c
  = (match first_missing d with
     | Some k => Raise (KeyError k)
     | None => Ok (Some (user_of d))
     end, c)
  /\ User._id (user_of d) = VOid oid
  /\ is_valid (User.get_id (user_of d)) = true.
Proof.
  intros Ho Hf. destruct (load_user_of_record c uid oid d Ho Hf) as [E Hid].
  split; [exact E|]. split; [exact Hid|].
  unfold User.get_id. rewrite Hid. apply is_valid_str.
Qed.

(** ** The dashboard *)

Lemma current_user_context (c : ctx) :
  exists o, current_user c = (o, c).
Proof.
  pose proof (readonly_current_user c) as Hr.
  destruct (current_user c) as [o c']. simpl in Hr. subst c'. now exists o.
Qed.

(** X4.  The dashboard is rendered exactly for the sessions that resolve
    to a stored user, and rendering it changes nothing in the context. *)
Theorem dashboard_iff_logged_in (c : ctx) (r : request) :
  path r = "/dashboard" ->
  (fst (handle c r) = Render "dashboard.html" None
   <-> exists u, current_user c = (Ok (LoggedIn u), c))
  /\ (fst (handle c r) = Render "dashboard.html" None -> snd (handle c r) = c).
Proof.
  intro Hp. rewrite (handle_dashboard _ _ Hp). unfold served, dashboard.
  destruct (current_user_context c) as [[[|u]|e] Hc].
  - rewrite (login_required_anonymous _ _ _ Hc). cbn [fst snd].
    split; [split|]; try discriminate.
    intros [u Hu]. rewrite Hu in Hc. discriminate.
  - rewrite (login_required_logged_in _ _ _ _ Hc). cbn [fst snd ret render_template].
    split; [split|]; auto. intros _. now exists u.
  - rewrite (login_required_raises _ _ _ _ Hc). cbn [fst snd].
    split; [split|]; try discriminate.
    intros [u Hu]. rewrite Hu in Hc. discriminate.
Qed.

(** ** Login *)

Lemma login_accepts_submitted (r : request) :
  login_accepts r = true -> meth r = POST.
Proof. unfold login_accepts, is_submitted. now destruct (meth r). Qed.

Lemma login_success (c : ctx) (r : request) (d : document) (h : string) (u : User.t) :
  login_accepts r = true ->
  find_one (users c) "username" (VStr (submitted r "username")) = Some d ->
  get "password" d = Some (VStr h) ->
  check_password_hash h (submitted r "password") = true ->
  User_of_document d = Ok u ->
  login r c = (Ok (Redirect "/dashboard" None), logged_in_as c (User.get_id u)).
Proof.
  intros Ha Hf Hg Hc Hu. pose proof (login_accepts_submitted _ Ha) as Hm.
  unfold login. unfold bind at 1.
  rewrite (validate_LoginForm c r Hm). cbn [fst snd]. rewrite Ha.
  unfold bind, users_find_one, lift, getitem.
  change (field_data (validated_LoginForm r) "username")
    with (submitted r "username").
  change (field_data (validated_LoginForm r) "password")
    with (submitted r "password").
  rewrite Hf, (find_one_truthy _ _ _ _ Hf), Hg. cbn [bcrypt_check].
  rewrite Hc, Hu. reflexivity.
Qed.

Lemma login_invalid (c : ctx) (r : request) :
  login_accepts r = false ->
  login r c
  = (Ok (Render "login.html"
           (Some (if is_submitted r then validated_LoginForm r
                  else bind_form (LoginForm r) r))), c).
Proof.
  intro Ha. unfold login. unfold bind at 1. unfold is_submitted.
  destruct (meth r) eqn:Hm.
  - now rewrite (validate_not_submitted _ c r Hm).
  - rewrite (validate_LoginForm c r Hm). cbn [fst snd]. now rewrite Ha.
Qed.

(** X1.  A valid login submission for a stored user whose password
    verifies is answered by the redirect to [/dashboard]; the session is
    bound to the printed [_id] of the record found under the user name,
    no message is flashed and the store is unchanged. *)
Theorem login_binds_session
        (c : ctx) (r : request) (d : document) (h : string) (u : User.t) :
  path r = "/login" ->
  login_accepts r = true ->
  find_one (users c) "username" (VStr (submitted r "username")) = Some d ->
  get "password" d = Some (VStr h) ->
  check_password_hash h (submitted r "password") = true ->
  User_of_document d = Ok u ->
  fst (handle c r) = Redirect "/dashboard" None
  /\ user_id (session (snd (handle c r))) = Some (str (value_at d "_id"))
  /\ flashes (session (snd (handle c r))) = flashes (session c)
  /\ users (snd (handle c r)) = users c.
Proof.
  intros Hp Ha Hf Hg Hc Hu. rewrite (handle_login _ _ Hp). unfold served.
  rewrite (login_success _ _ _ _ _ Ha Hf Hg Hc Hu). cbn [fst snd].
  repeat split. cbn [logged_in_as session user_id]. f_equal.
  rewrite User_of_document_closed in Hu.
  destruct (first_missing d); [discriminate|]. injection Hu as <-. reflexivity.
Qed.

(** X5.  A login request that does not pass form validation (a [GET], a
    missing or out-of-length user name or password, a failed CSRF check)
    renders the login page and leaves the context as it was: nothing is
    flashed, and the answer is the same whatever the store holds. *)
Theorem invalid_login_changes_nothing (c : ctx) (r : request) :
  path r = "/login" ->
  login_accepts r = false ->
  snd (handle c r) = c
  /\ (exists form, fst (handle c r) = Render "login.html" (Some form)
                   /\ (meth r = POST -> form = validated_LoginForm r))
  /\ (forall c2, fst (handle c2 r) = fst (handle c r)).
Proof.
  intros Hp Ha. rewrite (handle_login _ _ Hp). unfold served.
  rewrite (login_invalid _ _ Ha). cbn [fst snd].
  split; [reflexivity|]. split.
  - eexists. split; [reflexivity|]. intro Hm. unfold is_submitted.
    now rewrite Hm.
  - intro c2. rewrite (handle_login _ _ Hp). unfold served.
    now rewrite (login_invalid _ _ Ha).
Qed.

(** ** Dispatch *)

Lemma handle_dispatch (c : ctx) (r : request) :
  (exists status, handle c r = (Abort status, c))
  \/ handle c r = served home c r
  \/ (path r = "/login" /\ handle c r = served login c r)
  \/ (path r = "/dashboard" /\ handle c r = served dashboard c r)
  \/ (path r = "/logout" /\ handle c r = served logout c r)
  \/ (path r = "/register" /\ handle c r = served register c r).
Proof.
  unfold handle. cbn [find url_map fst snd].
  destruct (String.eqb "/" (path r)).
  { destruct (meth r); [right; left; reflexivity | left; now exists 405]. }
  destruct (String.eqb "/login" (path r)) eqn:E1.
  { apply String.eqb_eq in E1. right; right; left.
    split; [now symmetry|]. now destruct (meth r). }
  destruct (String.eqb "/dashboard" (path r)) eqn:E2.
  { apply String.eqb_eq in E2. right; right; right; left.
    split; [now symmetry|]. now destruct (meth r). }
  destruct (String.eqb "/logout" (path r)) eqn:E3.
  { apply String.eqb_eq in E3. right; right; right; right; left.
    split; [now symmetry|]. now destruct (meth r). }
  destruct (String.eqb "/register" (path r)) eqn:E4.
  { apply String.eqb_eq in E4. right; right; right; right; right.
    split; [now symmetry|]. now destruct (meth r). }
  left. now exists 404.
Qed.

Lemma served_home (c : ctx) (r : request) :
  served home c r = (Render "home.html" None, c).
Proof. reflexivity. Qed.

Lemma served_gated (c : ctx) (r : request) (view : M response) :
  served (fun r => login_required r view) c r
  = (Redirect "/login" (Some (path r)),
     flashed c "message" "Please log in to access this page.")
  \/ (exists e, served (fun r => login_required r view) c r
                = (InternalServerError e, c))
  \/ ((exists u, current_user c = (Ok (LoggedIn u), c))
      /\ served (fun r => login_required r view) c r
         = match view c with
           | (Ok resp, c') => (resp, c')
           | (Raise e, c') => (InternalServerError e, c')
           end).
Proof.
  unfold served. destruct (current_user_context c) as [[[|u]|e] Hc].
  - left. now rewrite (login_required_anonymous _ _ _ Hc).
  - right; right. split; [now exists u|].
    now rewrite (login_required_logged_in _ _ _ _ Hc).
  - right; left. exists e. now rewrite (login_required_raises _ _ _ _ Hc).
Qed.

Lemma served_dashboard (c : ctx) (r : request) :
  served dashboard c r
  = (Redirect "/login" (Some (path r)),
     flashed c "message" "Please log in to access this page.")
  \/ (exists e, served dashboard c r = (InternalServerError e, c))
  \/ ((exists u, current_user c = (Ok (LoggedIn u), c))
      /\ served dashboard c r = (Render "dashboard.html" None, c)).
Proof.
  exact (served_gated c r (ret (render_template "dashboard.html" None))).
Qed.

Lemma served_logout (c : ctx) (r : request) :
  served logout c r
  = (Redirect "/login" (Some (path r)),
     flashed c "message" "Please log in to access this page.")
  \/ (exists e, served logout c r = (InternalServerError e, c))
  \/ ((exists u, current_user c = (Ok (LoggedIn u), c))
      /\ served logout c r = (Redirect "/login" None, logged_out c)).
Proof.
  exact (served_gated c r
           (logout_user ;; url <- url_for "login" ;; ret (redirect url))).
Qed.

Lemma served_register (c : ctx) (r : request) :
  (register_accepts (users c) r = true
   /\ served register c r = (Redirect "/login" None, registered c r))
  \/ (register_accepts (users c) r = false
      /\ exists form,
           served register c r
           = (Render "register.html" (Some form), printed c (register_log form))
           /\ (meth r = POST -> form = validated_RegisterForm (users c) r)
           /\ (meth r = GET -> register_log form = [])).
Proof.
  unfold served. destruct (register_accepts (users c) r) eqn:Ha.
  - left. split; [reflexivity|]. now rewrite (register_accepted _ _ Ha).
  - right. split; [reflexivity|].
    destruct (register_rejected _ _ Ha) as [form [E Hf]].
    destruct (meth r) eqn:Hm.
    + exists (bind_form (RegisterForm r) r).
      assert (E' : register r c
                   = (Ok (Render "register.html" (Some (bind_form (RegisterForm r) r))),
                      printed c (register_log (bind_form (RegisterForm r) r)))).
      { unfold register. unfold bind at 1.
        rewrite (validate_not_submitted _ c r Hm). cbn [fst snd].
        unfold bind_form, is_submitted. rewrite Hm. cbn.
        now rewrite printed_nil. }
      rewrite E'. split; [reflexivity|]. split; [discriminate|].
      intros _. unfold bind_form, is_submitted. rewrite Hm. reflexivity.
    + exists form. rewrite E. split; [reflexivity|]. split; [exact Hf|discriminate].
Qed.

(** The cases of [login], whatever the store holds. *)
Lemma login_cases (c : ctx) (r : request) :
  snd (login r c) = c
  \/ login r c = (Ok (Render "login.html" (Some (validated_LoginForm r))),
                  flashed c "error" "Invalid username or password")
  \/ (meth r = POST
      /\ exists d h u,
           find_one (users c) "username" (VStr (submitted r "username")) = Some d
           /\ get "password" d = Some (VStr h)
           /\ check_password_hash h (submitted r "password") = true
           /\ User_of_document d = Ok u
           /\ login r c = (Ok (Redirect "/dashboard" None),
                           logged_in_as c (User.get_id u))).
Proof.
  destruct (login_accepts r) eqn:Ha.
  2:{ left. now rewrite (login_invalid _ _ Ha). }
  pose proof (login_accepts_submitted _ Ha) as Hm.
  destruct (find_one (users c) "username" (VStr (submitted r "username")))
    as [d|] eqn:Hf.
  2:{ right; left. now apply login_unknown_user. }
  destruct (get "password" d) as [[|h|o|b]|] eqn:Hg.
  1,3,4,5: left; unfold login; unfold bind at 1;
    rewrite (validate_LoginForm c r Hm); cbn [fst snd]; rewrite Ha;
    unfold bind, users_find_one, lift, getitem;
    change (field_data (validated_LoginForm r) "username")
      with (submitted r "username");
    rewrite Hf, (find_one_truthy _ _ _ _ Hf), Hg; reflexivity.
  destruct (check_password_hash h (submitted r "password")) eqn:Hc.
  2:{ right; left. now apply (login_wrong_password c r d h). }
  destruct (User_of_document d) as [u|e] eqn:Hu.
  - right; right. split; [exact Hm|]. exists d, h, u.
    repeat split; auto. now apply (login_success c r d h u).
  - left. unfold login; unfold bind at 1;
    rewrite (validate_LoginForm c r Hm); cbn [fst snd]; rewrite Ha;
    unfold bind, users_find_one, lift, getitem;
    change (field_data (validated_LoginForm r) "username")
      with (submitted r "username");
    change (field_data (validated_LoginForm r) "password")
      with (submitted r "password");
    rewrite Hf, (find_one_truthy _ _ _ _ Hf), Hg; cbn [bcrypt_check];
    rewrite Hc, Hu; reflexivity.
Qed.

(** X6.  The session gets bound to a user by nothing but a login whose
    password verified: whenever the session carries an identifier after a
    request, it carried the same one before, or the request was a [POST]
    to [/login], the store holds a record under the submitted user name,
    the submitted password verifies against the hash of that record, and
    the identifier is the printed [_id] of that record. *)
Theorem session_bound_only_by_login (c : ctx) (r : request) (uid : string) :
  user_id (session (snd (handle c r))) = Some uid ->
  user_id (session c) = Some uid
  \/ (path r = "/login" /\ meth r = POST
      /\ exists d h,
           find_one (users c) "username" (VStr (submitted r "username")) = Some d
           /\ get "password" d = Some (VStr h)
           /\ check_password_hash h (submitted r "password") = true
           /\ uid = str (value_at d "_id")).
Proof.
  intro Hs.
  destruct (handle_dispatch c r)
    as [[st E]|[E|[[Hp E]|[[Hp E]|[[Hp E]|[Hp E]]]]]]; rewrite E in Hs.
  - now left.
  - now left.
  - unfold served in Hs.
    destruct (login_cases c r) as [Hc|[Hc|[Hm [d [h [u [Hf [Hg [Hk [Hu Hc]]]]]]]]]].
    + left. destruct (login r c) as [[resp|e] c']; simpl in Hc; subst c'; exact Hs.
    + left. rewrite Hc in Hs. exact Hs.
    + right. split; [exact Hp|]. split; [exact Hm|]. exists d, h.
      repeat split; auto. rewrite Hc in Hs. cbn in Hs. injection Hs as <-.
      rewrite User_of_document_closed in Hu.
      destruct (first_missing d); [discriminate|]. injection Hu as <-. reflexivity.
  - left. destruct (served_dashboard c r) as [E'|[[e E']|[_ E']]];
      rewrite E' in Hs; exact Hs.
  - left. destruct (served_logout c r) as [E'|[[e E']|[_ E']]];
      rewrite E' in Hs; try exact Hs. discriminate Hs.
  - left. destruct (served_register c r) as [[_ E']|[_ [form [E' _]]]];
      rewrite E' in Hs; exact Hs.
Qed.

(** ** The store over a run of requests *)

Lemma handle_appends (c : ctx) (r : request) :
  exists tail,
    docs (users (snd (handle c r))) = (docs (users c) ++ tail)%list
    /\ List.length tail <= 1.
Proof.
  destruct (handle_users c r) as [E|[_ [_ E]]]; rewrite E.
  - exists []. rewrite app_nil_r. split; [reflexivity|simpl; lia].
  - exists [new_document (users c) r]. split; [reflexivity|simpl; lia].
Qed.

(** X7.  No sequence of requests removes or alters a record: the records
    present before a run are, in the same order, the first records after
    it, and at most one record per request is added behind them. *)
Theorem store_is_append_only (c : ctx) (rs : list request) :
  exists tail,
    docs (users (snd (run c rs))) = (docs (users c) ++ tail)%list
    /\ List.length tail <= List.length rs.
Proof.
  revert c. induction rs as [|r rs IH]; intro c.
  - exists []. rewrite app_nil_r. split; [reflexivity|simpl; lia].
  - cbn [run]. destruct (handle c r) as [resp c1] eqn:E1.
    destruct (handle_appends c r) as [t1 [Ht1 Hl1]]. rewrite E1 in Ht1.
    cbn [snd] in Ht1.
    destruct (IH c1) as [t2 [Ht2 Hl2]].
    destruct (run c1 rs) as [resps c2]. cbn [snd] in *.
    exists (t1 ++ t2)%list. rewrite Ht2, Ht1, app_assoc.
    split; [reflexivity|]. rewrite length_app. simpl. lia.
Qed.

(** ** Registration, then login *)

Lemma register_accepts_bounds (c : Collection) (r : request) :
  register_accepts c r = true ->
  String.eqb (submitted r "first_name") EmptyString = false
  /\ String.eqb (submitted r "last_name") EmptyString = false
  /\ email_ok (submitted r "email") = true
  /\ String.eqb (submitted r "username") EmptyString = false
  /\ length_ok 4 20 (submitted r "username") = true
  /\ String.eqb (submitted r "password") EmptyString = false
  /\ length_ok 8 20 (submitted r "password") = true.
Proof.
  unfold register_accepts. intro E.
  repeat match type of E with
         | _ && _ = true => apply andb_prop in E; destruct E as [E ?]
         end.
  repeat match goal with
         | X : _ && _ = true |- _ => apply andb_prop in X; destruct X
         | X : negb _ = true |- _ => apply negb_true_iff in X
         end.
  repeat split; assumption.
Qed.

Lemma find_app {A} (f : A -> bool) (l l' : list A) :
  find f (l ++ l') = match find f l with Some x => Some x | None => find f l' end.
Proof.
  induction l as [|x l IH]; simpl; [reflexivity|]. now destruct (f x).
Qed.

Lemma not_taken_find_one (c : Collection) (k s : string) :
  taken c k s = false -> find_one c k (VStr s) = None.
Proof.
  unfold taken. rewrite find_one_nonempty.
  now destruct (find_one c k (VStr s)).
Qed.

(** X8.  The credentials of an accepted registration log in: when the
    hasher verifies the submitted password against the hash it made of it,
    a login submission with the registered user name and password passes
    the login form's validation, finds the new record first, and is
    answered by the redirect to [/dashboard] with the session bound to the
    new record's identifier. *)
Theorem registered_credentials_log_in (c : ctx) (r : request) :
  path r = "/register" ->
  register_accepts (users c) r = true ->
  check_password_hash
    (generate_password_hash (salt r) (submitted r "password"))
    (submitted r "password") = true ->
  login_accepts (login_of r) = true
  /\ fst (handle (snd (handle c r)) (login_of r)) = Redirect "/dashboard" None
  /\ user_id (session (snd (handle (snd (handle c r)) (login_of r))))
     = Some (str (VOid (next_oid (users c)))).
Proof.
  intros Hp Ha Hv.
  destruct (register_accepts_bounds _ _ Ha) as [_ [_ [_ [Hu [Hul [Hw Hwl]]]]]].
  destruct (register_accepts_facts _ _ Ha) as [_ [Hnt _]].
  assert (Hla : login_accepts (login_of r) = true).
  { unfold login_accepts, login_of, submitted, is_submitted.
    cbn [meth method_eqb formdata lookup csrf_error String.eqb Ascii.eqb Bool.eqb andb].
    unfold submitted in *. now rewrite Hu, Hul, Hw, Hwl. }
  split; [exact Hla|].
  rewrite (handle_register_accepted _ _ Hp Ha).  cbn [snd].
  rewrite (handle_login _ (login_of r) eq_refl). unfold served.
  rewrite (login_success (registered c r) (login_of r)
             (new_document (users c) r)
             (generate_password_hash (salt r) (submitted r "password"))
             (user_of (new_document (users c) r)) Hla).
  - split; reflexivity.
  - unfold find_one, registered. cbn [users docs]. rewrite find_app.
    pose proof (not_taken_find_one _ _ _ Hnt) as Hn. unfold find_one in Hn.
    change (submitted (login_of r) "username") with (submitted r "username").
    rewrite Hn. cbn [find]. unfold matches, new_document.
    cbn [get String.eqb Ascii.eqb Bool.eqb value_eqb].
    now rewrite String.eqb_refl.
  - reflexivity.
  - exact Hv.
  - reflexivity.
Qed.

(** ** Login, then the dashboard *)

Lemma NoDup_map_injective {A B} (f : A -> B) (l : list A) (x y : A) :
  NoDup (map f l) -> In x l -> In y l -> f x = f y -> x = y.
Proof.
  induction l as [|a l IH]; intros Hn Hx Hy E; [destruct Hx|].
  simpl in Hn. inversion Hn as [|b l' Hnotin Hn']; subst.
  destruct Hx as [->|Hx], Hy as [->|Hy]; auto.
  - exfalso. apply Hnotin. rewrite E. now apply in_map.
  - exfalso. apply Hnotin. rewrite <- E. now apply in_map.
Qed.

Lemma find_one_unique (c : Collection) (k : string) (v : value) (d : document) :
  unique_on k c -> In d (docs c) -> get k d = Some v -> find_one c k v = Some d.
Proof.
  intros Hu Hin Hg.
  destruct (find_one c k v) as [d'|] eqn:Hf.
  - destruct (find_one_matches _ _ _ _ Hf) as [Hin' Hg'].
    f_equal. apply (NoDup_map_injective (get k) (docs c)); auto. congruence.
  - unfold find_one in Hf. apply (find_none _ _ Hf) in Hin.
    unfold matches in Hin. rewrite Hg in Hin.
    assert (Hv : value_eqb v v = true) by now apply value_eqb_eq.
    congruence.
Qed.

(** X9.  The session a login issues resolves to the user who logged in:
    when record identifiers are distinct and the record's identifier is
    one of twelve bytes, then after a successful login the user loader,
    called on the session's identifier, finds that very record, the
    current user is the user built from it, and the dashboard is
    rendered. *)
Theorem login_then_dashboard
        (c : ctx) (r r2 : request) (d : document) (h : string) (u : User.t) (o : N) :
  path r = "/login" ->
  login_accepts r = true ->
  find_one (users c) "username" (VStr (submitted r "username")) = Some d ->
  get "password" d = Some (VStr h) ->
  check_password_hash h (submitted r "password") = true ->
  User_of_document d = Ok u ->
  get "_id" d = Some (VOid o) ->
  (o < 2 ^ 96)%N ->
  unique_on "_id" (users c) ->
  path r2 = "/dashboard" ->
  current_user (snd (handle c r)) = (Ok (LoggedIn u), snd (handle c r))
  /\ fst (handle (snd (handle c r)) r2) = Render "dashboard.html" None.
Proof.
  intros Hp Ha Hf Hg Hc Hu Hid Ho Huniq Hp2.
  rewrite (handle_login _ _ Hp). unfold served.
  rewrite (login_success _ _ _ _ _ Ha Hf Hg Hc Hu). cbn [snd].
  assert (Hget : User.get_id u = str (VOid o)).
  { rewrite User_of_document_closed in Hu.
    destruct (first_missing d); [discriminate|]. injection Hu as <-.
    unfold User.get_id, user_of, value_at. cbn [User._id]. now rewrite Hid. }
  rewrite Hget.
  set (c1 := logged_in_as c (str (VOid o))).
  assert (Hl : load_user (str (VOid o)) c1 = (Ok (Some u), c1)).
  { destruct (find_one_matches _ _ _ _ Hf) as [Hin _].
    assert (Hf1 : find_one (users c1) "_id" (VOid o) = Some d)
      by now apply find_one_unique.
    assert (Hoid : ObjectId (str (VOid o)) = Ok (VOid o)).
    { rewrite ObjectId_str. now rewrite N.mod_small. }
    destruct (load_user_of_record c1 _ _ _ Hoid Hf1) as [E _]. rewrite E.
    rewrite User_of_document_closed in Hu.
    destruct (first_missing d); [discriminate|]. now injection Hu as <-. }
  assert (Hcu : current_user c1 = (Ok (LoggedIn u), c1)).
  { exact (current_user_of_session c1 (str (VOid o)) (Ok (Some u)) eq_refl Hl). }
  split; [exact Hcu|].
  rewrite (handle_dashboard _ _ Hp2). unfold served, dashboard.
  now rewrite (login_required_logged_in _ _ _ _ Hcu).
Qed.

(** ** Contexts of the application's own making *)

Lemma record_ok_fields (d : document) :
  record_ok d = true ->
  first_missing d = None
  /\ (exists o, get "_id" d = Some (VOid o))
  /\ (exists h, get "password" d = Some (VStr h)).
Proof.
  unfold record_ok, first_missing, is_oid, is_str. cbn [find constructor_keys].
  destruct (get "_id" d) as [[|?|o|?]|]; try discriminate.
  destruct (get "first_name" d) as [[|?|?|?]|]; try discriminate.
  destruct (get "last_name" d) as [[|?|?|?]|]; try discriminate.
  destruct (get "email" d) as [[|?|?|?]|]; try discriminate.
  destruct (get "username" d) as [[|?|?|?]|]; try discriminate.
  destruct (get "password" d) as [[|h|?|?]|]; try discriminate.
  intros _. split; [reflexivity|]. split; [now exists o | now exists h].
Qed.

Lemma current_user_well_formed (c : ctx) :
  well_formed c -> exists p, current_user c = (Ok p, c).
Proof.
  intros [Hd Hs]. unfold session_ok in Hs.
  destruct (user_id (session c)) as [uid|] eqn:Hu.
  - destruct (ObjectId_valid _ Hs) as [oid Ho].
    destruct (find_one (users c) "_id" (VOid oid)) as [d|] eqn:Hf.
    + destruct (load_user_of_record c _ _ _ Ho Hf) as [E _].
      destruct (find_one_matches _ _ _ _ Hf) as [Hin _].
      rewrite Forall_forall in Hd.
      destruct (record_ok_fields _ (Hd _ Hin)) as [Hm _]. rewrite Hm in E.
      exists (LoggedIn (user_of d)).
      exact (current_user_of_session c uid _ Hu E).
    + exists AnonymousUser.
      exact (current_user_of_session c uid _ Hu (load_user_not_found _ _ _ Ho Hf)).
  - exists AnonymousUser. unfold current_user. now rewrite Hu.
Qed.

Lemma well_formed_same (c c' : ctx) :
  well_formed c ->
  docs (users c') = docs (users c) ->
  user_id (session c') = user_id (session c) \/ user_id (session c') = None ->
  well_formed c'.
Proof.
  intros [Hd Hs] Ed Es. split; [now rewrite Ed|].
  unfold session_ok in *. destruct Es as [Es|Es]; now rewrite Es.
Qed.

Lemma login_keeps_well_formed (c : ctx) (r : request) :
  well_formed c -> well_formed (snd (served login c r)).
Proof.
  intro Hw. unfold served.
  destruct (login_cases c r) as [Hc|[Hc|[_ [d [h [u [Hf [_ [_ [Hu Hc]]]]]]]]]].
  - destruct (login r c) as [[resp|e] c']; simpl in Hc; subst c'; exact Hw.
  - rewrite Hc. apply (well_formed_same c); auto.
  - rewrite Hc. cbn [snd].
    destruct (find_one_matches _ _ _ _ Hf) as [Hin _].
    pose proof Hw as [Hd _]. rewrite Forall_forall in Hd.
    destruct (record_ok_fields _ (Hd _ Hin)) as [Hm [[o Ho] _]].
    rewrite User_of_document_closed, Hm in Hu. injection Hu as <-.
    destruct Hw as [Hd' _]. split; [exact Hd'|].
    unfold session_ok, logged_in_as, User.get_id, user_of, value_at.
    cbn [session user_id User._id]. rewrite Ho. apply is_valid_str.
Qed.

Lemma handle_keeps_well_formed (c : ctx) (r : request) :
  well_formed c -> well_formed (snd (handle c r)).
Proof.
  intro Hw.
  destruct (handle_dispatch c r)
    as [[st E]|[E|[[Hp E]|[[Hp E]|[[Hp E]|[Hp E]]]]]]; rewrite E.
  - exact Hw.
  - exact Hw.
  - now apply login_keeps_well_formed.
  - destruct (served_dashboard c r) as [E'|[[e E']|[_ E']]]; rewrite E'.
    + apply (well_formed_same c); auto.
    + exact Hw.
    + exact Hw.
  - destruct (served_logout c r) as [E'|[[e E']|[_ E']]]; rewrite E'.
    + apply (well_formed_same c); auto.
    + exact Hw.
    + apply (well_formed_same c); auto.
  - destruct (served_register c r) as [[_ E']|[_ [form [E' _]]]]; rewrite E'.
    + destruct Hw as [Hd Hs]. split; [|exact Hs].
      unfold registered. cbn [snd users docs]. apply Forall_app.
      split; [exact Hd|]. constructor; [reflexivity|constructor].
    + apply (well_formed_same c); auto.
Qed.

Lemma run_keeps_well_formed (c : ctx) (rs : list request) :
  well_formed c -> well_formed (snd (run c rs)).
Proof.
  revert c. induction rs as [|r rs IH]; intros c Hw; [exact Hw|].
  cbn [run]. pose proof (handle_keeps_well_formed c r Hw) as Hw1.
  destruct (handle c r) as [resp c1]. cbn [snd] in Hw1.
  specialize (IH c1 Hw1). destruct (run c1 rs) as [resps c2]. exact IH.
Qed.

Lemma gate_well_formed (c : ctx) (r : request) :
  well_formed c -> protected r -> is_server_error (fst (handle c r)) = false.
Proof.
  intros Hw Hp. destruct (current_user_well_formed c Hw) as [p Hc].
  destruct Hp as [Hp|Hp].
  - rewrite (handle_dashboard _ _ Hp). unfold served, dashboard.
    destruct p as [|u].
    + now rewrite (login_required_anonymous _ _ _ Hc).
    + now rewrite (login_required_logged_in _ _ _ _ Hc).
  - rewrite (handle_logout _ _ Hp). unfold served, logout.
    destruct p as [|u].
    + now rewrite (login_required_anonymous _ _ _ Hc).
    + now rewrite (login_required_logged_in _ _ _ _ Hc).
Qed.

(** X10.  In a context with well-formed records (the six fields, an
    [ObjectId] under [_id], strings under the others) and a session that is
    unbound or bound to a well-formed identifier, session resolution does
    not raise: the current user is the anonymous user or a stored user,
    and a request to [/dashboard] or [/logout] is not answered by a server
    error.  Every request leaves the context of this kind, so the same
    holds after any run of requests: the sessions [login] issues and the
    records [register] writes never break the user loader. *)
Theorem protected_routes_never_fail (c : ctx) (rs : list request) (r : request) :
  well_formed c ->
  protected r ->
  well_formed (snd (run c rs))
  /\ (exists p, current_user (snd (run c rs)) = (Ok p, snd (run c rs)))
  /\ is_server_error (fst (handle (snd (run c rs)) r)) = false.
Proof.
  intros Hw Hp. pose proof (run_keeps_well_formed c rs Hw) as Hw'.
  split; [exact Hw'|]. split.
  - now apply current_user_well_formed.
  - now apply gate_well_formed.
Qed.

(** ** What the store holds *)

Lemma eqb_false_neq (s : string) :
  String.eqb s EmptyString = false -> s <> EmptyString.
Proof. intros E ->. discriminate E. Qed.

Lemma length_ok_bounds (a b : nat) (s : string) :
  length_ok a b s = true -> a <= String.length s <= b.
Proof.
  unfold length_ok. intro E. apply andb_prop in E. destruct E as [E1 E2].
  apply Nat.leb_le in E1. apply Nat.leb_le in E2. lia.
Qed.

(** X11.  Every record of a store that arises from the empty one by
    serving requests is a record as [register] writes it: the six fields
    in order, first and last name not empty, an e-mail address the syntax
    check accepts, a user name of 4 to 20 characters, and under
    [password] the hash of a password of 8 to 20 characters. *)
Theorem stored_records_are_registered (col : Collection) :
  reachable col -> Forall registered_record (docs col).
Proof.
  induction 1 as [n|c r _ IH]; [constructor|].
  destruct (handle_users c r) as [E|[_ [Ha E]]]; rewrite E; [exact IH|].
  unfold registered. cbn [users docs]. apply Forall_app. split; [exact IH|].
  constructor; [|constructor].
  destruct (register_accepts_bounds _ _ Ha) as [Hf [Hl [He [_ [Hu [_ Hp]]]]]].
  exists (next_oid (users c)), (submitted r "first_name"), (submitted r "last_name"),
    (submitted r "email"), (submitted r "username"), (submitted r "password"),
    (salt r).
  split; [reflexivity|].
  split; [now apply eqb_false_neq|]. split; [now apply eqb_false_neq|].
  split; [exact He|]. split; now apply length_ok_bounds.
Qed.

(** ** What [register] prints *)

Lemma length_error_lines (form : Form) :
  List.length (error_lines (form_errors form)) = count_errors form.
Proof.
  unfold form_errors, count_errors.
  induction form as [|f form IH]; [reflexivity|].
  cbn [filter map list_sum]. unfold no_errors at 1.
  destruct (errors f) as [|e es] eqn:E; cbn [negb].
  - exact IH.
  - cbn [map error_lines flat_map fst snd]. rewrite length_app, length_map.
    rewrite E. unfold list_sum. cbn [fold_right]. f_equal. exact IH.
Qed.

Lemma rejected_has_errors (c : Collection) (r : request) :
  meth r = POST ->
  register_accepts c r = false ->
  form_errors (validated_RegisterForm c r) <> [].
Proof.
  intros Hm Ha Hn.
  assert (Hall : forallb no_errors (validated_RegisterForm c r) = true).
  { unfold form_errors in Hn. apply map_eq_nil in Hn.
    apply forallb_forall. intros f Hin.
    destruct (no_errors f) eqn:E; [reflexivity|].
    assert (Hin' : In f (filter (fun f => negb (no_errors f))
                                (validated_RegisterForm c r))).
    { apply filter_In. split; [exact Hin|]. now rewrite E. }
    rewrite Hn in Hin'. destruct Hin'. }
  unfold validated_RegisterForm in Hall. cbn [forallb] in Hall.
  rewrite !no_errors_required, no_errors_email, no_errors_username,
    no_errors_length, no_errors_csrf in Hall.
  unfold register_accepts, is_submitted in Ha. rewrite Hm in Ha.
  cbn [method_eqb andb] in Ha. cbn [no_errors errors] in Hall.
  rewrite ?andb_true_l, ?andb_true_r, !andb_assoc, ?andb_true_r in Hall.
  rewrite !andb_assoc in Ha. congruence.
Qed.

(** X12.  What a request to [/register] prints: nothing when it is a [GET]
    and nothing when the registration is accepted; for a rejected
    submission the line "Form errors:" and after it one line for every
    error message of the form, of which there is at least one. *)
Theorem register_prints_errors (c : ctx) (r : request) :
  path r = "/register" ->
  (meth r = GET -> stdout (snd (handle c r)) = stdout c)
  /\ (register_accepts (users c) r = true -> stdout (snd (handle c r)) = stdout c)
  /\ (meth r = POST ->
      register_accepts (users c) r = false ->
      exists lines,
        stdout (snd (handle c r)) = (stdout c ++ "Form errors:" :: lines)%list
        /\ List.length lines = count_errors (validated_RegisterForm (users c) r)
        /\ 1 <= List.length lines).
Proof.
  intro Hp. rewrite (handle_register _ _ Hp).
  split; [|split].
  - intro Hm.
    destruct (served_register c r) as [[Ha _]|[_ [form [E [_ Hg]]]]].
    + apply register_accepts_submitted in Ha. congruence.
    + rewrite E. cbn [snd printed stdout]. rewrite (Hg Hm). apply app_nil_r.
  - intro Ha. unfold served. now rewrite (register_accepted _ _ Ha).
  - intros Hm Ha.
    destruct (served_register c r) as [[Ha' _]|[_ [form [E [Hf _]]]]];
      [congruence|].
    rewrite E. cbn [snd printed stdout]. rewrite (Hf Hm).
    pose proof (rejected_has_errors _ _ Hm Ha) as Hne.
    pose proof (length_error_lines (validated_RegisterForm (users c) r)) as Hl.
    unfold register_log.
    destruct (form_errors (validated_RegisterForm (users c) r))
      as [|item items] eqn:Ef; [contradiction|].
    exists (error_lines (item :: items)). split; [reflexivity|].
    split; [exact Hl|].
    rewrite Hl. clear Hl.
    assert (Hc : count_errors (validated_RegisterForm (users c) r) <> 0).
    { intro Hz. rewrite <- length_error_lines, Ef in Hz.
      destruct item as [fld errs].
      assert (Hin : In (fld, errs) (form_errors (validated_RegisterForm (users c) r)))
        by (rewrite Ef; now left).
      unfold form_errors in Hin. apply in_map_iff in Hin.
      destruct Hin as [f [Hfe Hin]]. apply filter_In in Hin.
      destruct Hin as [_ Hin]. injection Hfe as _ Hfe.
      unfold no_errors in Hin. rewrite Hfe in Hin.
      destruct errs; [discriminate|].
      cbn [error_lines flat_map snd map] in Hz. discriminate Hz. }
    lia.
Qed.

(** ** Login on a record that lacks a key *)

(** X14.  A valid login submission whose user name finds a record without
    the key [password] ends in a server error for [KeyError] on
    [password]; when the password verifies and the record lacks another of
    the keys the [User] constructor reads, it ends in a server error for
    the first key lacking.  Either way the context is untouched: no user
    is bound to the session and nothing is flashed. *)
Theorem login_on_incomplete_record (c : ctx) (r : request) (d : document) :
  path r = "/login" ->
  login_accepts r = true ->
  find_one (users c) "username" (VStr (submitted r "username")) = Some d ->
  (get "password" d = None ->
   handle c r = (InternalServerError (KeyError "password"), c))
  /\ (forall h k,
        get "password" d = Some (VStr h) ->
        check_password_hash h (submitted r "password") = true ->
        first_missing d = Some k ->
        handle c r = (InternalServerError (KeyError k), c)).
Proof.
  intros Hp Ha Hf. pose proof (login_accepts_submitted _ Ha) as Hm.
  rewrite (handle_login _ _ Hp). unfold served.
  assert (E : login r c
              = (h <- lift (getitem d "password") ;;
                 ok <- lift (bcrypt_check h (submitted r "password")) ;;
                 if ok then
                   user_obj <- lift (User_of_document d) ;;
                   login_user user_obj ;;
                   url <- url_for "dashboard" ;;
                   ret (redirect url)
                 else login_failed (validated_LoginForm r)) c).
  { unfold login. unfold bind at 1.
    rewrite (validate_LoginForm c r Hm). cbn [fst snd]. rewrite Ha.
    unfold bind at 1. unfold users_find_one.
    change (field_data (validated_LoginForm r) "username")
      with (submitted r "username").
    rewrite Hf, (find_one_truthy _ _ _ _ Hf). reflexivity. }
  rewrite E. split.
  - intro Hg. unfold bind, lift, getitem. now rewrite Hg.
  - intros h k Hg Hc Hk. unfold bind, lift, getitem. rewrite Hg.
    cbn [bcrypt_check]. rewrite Hc, User_of_document_closed, Hk. reflexivity.
Qed.

End Application.

(* ------------------------------------------------------------------ *)
(** * The properties at concrete requests *)

(** The scenario of section 8 of the specification: register, log in,
    open the dashboard, log out, open the dashboard again. *)
Example happy_path :
  fst (stub_run empty_ctx
         [alice_registration; alice_login; get_ "/dashboard"; get_ "/logout";
          get_ "/dashboard"])
  = [Redirect "/login" None; Redirect "/dashboard" None;
     Render "dashboard.html" None; Redirect "/login" None;
     Redirect "/login" (Some "/dashboard")].
Proof. vm_compute. reflexivity. Qed.

(** The identifier of a record, printed and parsed back, finds the record. *)
Example session_round_trip :
  fst (load_user (User.get_id alice_user) alice_logged_in) = Ok (Some alice_user).
Proof. vm_compute. reflexivity. Qed.

(** A client without a session asks for the dashboard. *)
Lemma anonymous_is_redirected_to_login_witness :
  protected (get_ "/dashboard")
  /\ current_user empty_ctx = (Ok AnonymousUser, empty_ctx)
  /\ fst (stub_handle empty_ctx (get_ "/dashboard"))
     = Redirect "/login" (Some "/dashboard").
Proof.
  assert (Hp : protected (get_ "/dashboard")) by (left; reflexivity).
  assert (Hu : current_user empty_ctx = (Ok AnonymousUser, empty_ctx))
    by reflexivity.
  split; [exact Hp|]. split; [exact Hu|].
  exact (proj1 (@anonymous_is_redirected_to_login stub_bcrypt stub_email
                  empty_ctx (get_ "/dashboard") Hp Hu)).
Defined.

(** A session bound to an identifier that no record carries. *)
Lemma missing_record_resolves_to_anonymous_witness :
  ObjectId "0123456789abcdef01234567" = Ok (VOid 352125166730063718056674663)
  /\ find_one (users stale_ctx) "_id" (VOid 352125166730063718056674663) = None
  /\ load_user "0123456789abcdef01234567" stale_ctx = (Ok None, stale_ctx)
  /\ current_user stale_ctx = (Ok AnonymousUser, stale_ctx).
Proof.
  assert (Ho : ObjectId "0123456789abcdef01234567"
               = Ok (VOid 352125166730063718056674663)) by (vm_compute; reflexivity).
  assert (Hf : find_one (users stale_ctx) "_id" (VOid 352125166730063718056674663)
               = None) by reflexivity.
  split; [exact Ho|]. split; [exact Hf|].
  destruct (@missing_record_resolves_to_anonymous stub_bcrypt stub_email
              stale_ctx _ _ Ho Hf) as [Hl Hs].
  split; [exact Hl|]. exact (proj1 (Hs eq_refl)).
Defined.

(** C10, as the claim words it, fails: a session value of 24 characters
    with two spaces among its digits is not a well-formed identifier, yet
    [ObjectId] builds an identifier of eleven bytes from it and raises
    nothing; the user loader returns [None] and the dashboard request is
    redirected to [/login] as for an anonymous client. *)
Lemma spaced_session_id_does_not_raise :
  is_valid spaced_id = false
  /\ ObjectId spaced_id
     = Ok (VOidShort [1; 35; 69; 103; 137; 171; 205; 239; 1; 35; 69]%N)
  /\ load_user spaced_id spaced_ctx = (Ok None, spaced_ctx)
  /\ fst (stub_handle spaced_ctx (get_ "/dashboard"))
     = Redirect "/login" (Some "/dashboard")
  /\ ~ (forall (c : ctx) (uid : string),
          is_valid uid = false -> exists e, fst (load_user uid c) = Raise e).
Proof.
  assert (Hl : load_user spaced_id spaced_ctx = (Ok None, spaced_ctx))
    by (vm_compute; reflexivity).
  split; [reflexivity|]. split; [vm_compute; reflexivity|].
  split; [exact Hl|]. split; [vm_compute; reflexivity|].
  intro Hall. destruct (Hall spaced_ctx spaced_id eq_refl) as [e He].
  rewrite Hl in He. discriminate He.
Qed.

(** A session bound to the string [None], which is no identifier. *)
Lemma malformed_session_id_raises_witness :
  ObjectId_accepts "None" = false
  /\ load_user "None" malformed_ctx = (Raise (InvalidId "None"), malformed_ctx)
  /\ stub_handle malformed_ctx (get_ "/dashboard")
     = (InternalServerError (InvalidId "None"), malformed_ctx).
Proof.
  assert (Hv : ObjectId_accepts "None" = false) by reflexivity.
  split; [exact Hv|].
  destruct (@malformed_session_id_raises stub_bcrypt stub_email
              malformed_ctx "None" Hv) as [Hl [_ Hs]].
  split; [exact Hl|].
  exact (proj2 (Hs eq_refl) (get_ "/dashboard") (or_introl eq_refl)).
Defined.

(** Alice, logged in, asks for [/logout] twice. *)
Lemma logout_twice_witness :
  path (get_ "/logout") = "/logout"
  /\ current_user alice_logged_in = (Ok (LoggedIn alice_user), alice_logged_in)
  /\ fst (stub_run alice_logged_in [get_ "/logout"; get_ "/logout"])
     = [Redirect "/login" None; Redirect "/login" (Some "/logout")].
Proof.
  assert (Hu : current_user alice_logged_in
               = (Ok (LoggedIn alice_user), alice_logged_in))
    by (vm_compute; reflexivity).
  split; [reflexivity|]. split; [exact Hu|].
  exact (proj2 (proj2 (proj2
           (@logout_twice stub_bcrypt stub_email alice_logged_in
              (get_ "/logout") (get_ "/logout") alice_user eq_refl eq_refl Hu)))).
Defined.

(** Alice registers with the empty store. *)
Lemma registration_does_not_log_in_witness :
  path alice_registration = "/register"
  /\ @register_accepts stub_email (users empty_ctx) alice_registration = true
  /\ fst (stub_handle empty_ctx alice_registration) = Redirect "/login" None
  /\ session (snd (stub_handle empty_ctx alice_registration)) = session empty_ctx.
Proof.
  assert (Ha : @register_accepts stub_email (users empty_ctx) alice_registration
               = true) by (vm_compute; reflexivity).
  split; [reflexivity|]. split; [exact Ha|].
  destruct (@registration_does_not_log_in stub_bcrypt stub_email
              empty_ctx alice_registration eq_refl Ha) as [Hr [Hs _]].
  split; [exact Hr | exact Hs].
Defined.

(** Alice registers: one record.  A second registration under her user
    name: still one record. *)
Lemma registration_inserts_one_or_none_witness :
  path alice_registration = "/register"
  /\ path duplicate_registration = "/register"
  /\ List.length (docs (users (snd (stub_handle empty_ctx alice_registration)))) = 1
  /\ List.length (docs (users (snd (stub_handle alice_registered
                                      duplicate_registration)))) = 1.
Proof.
  split; [reflexivity|]. split; [reflexivity|]. split.
  - exact (proj2 (proj2 (@registration_inserts_one_or_none stub_bcrypt stub_email
                           empty_ctx alice_registration eq_refl))).
  - exact (proj2 (proj2 (@registration_inserts_one_or_none stub_bcrypt stub_email
                           alice_registered duplicate_registration eq_refl))).
Defined.

(** The record of Alice's registration. *)
Lemma persisted_record_shape_witness :
  path alice_registration = "/register"
  /\ @register_accepts stub_email (users empty_ctx) alice_registration = true
  /\ String.length (stub_hash (salt alice_registration)
                              (submitted alice_registration "password")) = 60
  /\ exists d,
       docs (users (snd (stub_handle empty_ctx alice_registration))) = [d]
       /\ keys d = stored_shape.
Proof.
  assert (Ha : @register_accepts stub_email (users empty_ctx) alice_registration
               = true) by (vm_compute; reflexivity).
  assert (Hl : String.length (stub_hash (salt alice_registration)
                                (submitted alice_registration "password")) = 60)
    by (vm_compute; reflexivity).
  split; [reflexivity|]. split; [exact Ha|]. split; [exact Hl|].
  destruct (@persisted_record_shape stub_bcrypt stub_email
              empty_ctx alice_registration eq_refl Ha Hl) as [d [Hd [Hk _]]].
  exists d. split; [exact Hd | exact Hk].
Defined.

(** C7, as the specification words it, fails: the record Alice's
    registration persists has no field [password_hash]. *)
Lemma specified_shape_is_not_stored :
  exists d,
    docs (users (snd (stub_handle empty_ctx alice_registration))) = [d]
    /\ get "password_hash" d = None
    /\ ~ same_fields d specified_shape.
Proof.
  exists alice_document. split; [vm_compute; reflexivity|].
  split; [reflexivity|].
  intro Hs. destruct (Hs "password_hash") as [_ Hin].
  assert (Hk : In "password_hash" (keys alice_document)).
  { apply Hin. unfold specified_shape. simpl. tauto. }
  simpl in Hk.
  repeat (destruct Hk as [Hk|Hk]; [discriminate Hk|]). exact Hk.
Qed.

(** A wrong password for Alice, before and after she has registered. *)
Lemma login_failures_are_indistinguishable_witness :
  path wrong_password_login = "/login"
  /\ login_accepts wrong_password_login = true
  /\ session empty_ctx = session alice_registered
  /\ find_one (users empty_ctx) "username"
       (VStr (submitted wrong_password_login "username")) = None
  /\ find_one (users alice_registered) "username"
       (VStr (submitted wrong_password_login "username")) = Some alice_document
  /\ get "password" alice_document = Some (VStr (stub_hash "s1" "Passw0rd!"))
  /\ stub_check (stub_hash "s1" "Passw0rd!")
       (submitted wrong_password_login "password") = false
  /\ fst (stub_handle alice_registered wrong_password_login)
     = fst (stub_handle empty_ctx wrong_password_login)
  /\ session (snd (stub_handle alice_registered wrong_password_login))
     = session (snd (stub_handle empty_ctx wrong_password_login)).
Proof.
  assert (Ha : login_accepts wrong_password_login = true) by (vm_compute; reflexivity).
  assert (H1 : find_one (users empty_ctx) "username"
                 (VStr (submitted wrong_password_login "username")) = None)
    by reflexivity.
  assert (H2 : find_one (users alice_registered) "username"
                 (VStr (submitted wrong_password_login "username"))
               = Some alice_document) by (vm_compute; reflexivity).
  assert (Hg : get "password" alice_document
               = Some (VStr (stub_hash "s1" "Passw0rd!")))
    by (vm_compute; reflexivity).
  assert (Hc : stub_check (stub_hash "s1" "Passw0rd!")
                 (submitted wrong_password_login "password") = false)
    by (vm_compute; reflexivity).
  split; [reflexivity|]. split; [exact Ha|]. split; [reflexivity|].
  split; [exact H1|]. split; [exact H2|]. split; [exact Hg|]. split; [exact Hc|].
  destruct (@login_failures_are_indistinguishable stub_bcrypt stub_email
              empty_ctx alice_registered wrong_password_login alice_document
              (stub_hash "s1" "Passw0rd!") eq_refl Ha eq_refl H1 H2 Hg Hc)
    as [_ [Hr [Hs _]]].
  split; [exact Hr | exact Hs].
Defined.

(** A second registration under Alice's user name is turned down. *)
Lemma registrations_are_unique_witness :
  @reachable stub_bcrypt stub_email (users alice_registered)
  /\ unique_on "username"
       (users (snd (stub_handle alice_registered duplicate_registration)))
  /\ users (snd (stub_handle alice_registered duplicate_registration))
     = users alice_registered.
Proof.
  assert (Hr : @reachable stub_bcrypt stub_email (users alice_registered))
    by exact (@reachable_handle stub_bcrypt stub_email empty_ctx alice_registration
                (@reachable_empty stub_bcrypt stub_email 0%N)).
  split; [exact Hr|].
  destruct (@registrations_are_unique stub_bcrypt stub_email
              alice_registered duplicate_registration Hr) as [_ [[Hu _] Hrej]].
  split; [exact Hu|].
  exact (proj1 (Hrej eq_refl eq_refl (or_introl eq_refl))).
Defined.

(* ------------------------------------------------------------------ *)
(** * The properties of the whole application at concrete requests *)

(** Alice logs in after she has registered. *)
Lemma login_binds_session_witness :
  path alice_login = "/login"
  /\ login_accepts alice_login = true
  /\ find_one (users alice_registered) "username"
       (VStr (submitted alice_login "username")) = Some alice_document
  /\ get "password" alice_document = Some (VStr (stub_hash "s1" "Passw0rd!"))
  /\ stub_check (stub_hash "s1" "Passw0rd!") (submitted alice_login "password") = true
  /\ User_of_document alice_document = Ok alice_user
  /\ fst (stub_handle alice_registered alice_login) = Redirect "/dashboard" None
  /\ user_id (session (snd (stub_handle alice_registered alice_login)))
     = Some "000000000000000000000000".
Proof.
  assert (Ha : login_accepts alice_login = true) by (vm_compute; reflexivity).
  assert (Hf : find_one (users alice_registered) "username"
                 (VStr (submitted alice_login "username")) = Some alice_document)
    by (vm_compute; reflexivity).
  assert (Hg : get "password" alice_document
               = Some (VStr (stub_hash "s1" "Passw0rd!")))
    by (vm_compute; reflexivity).
  assert (Hc : stub_check (stub_hash "s1" "Passw0rd!")
                 (submitted alice_login "password") = true)
    by (vm_compute; reflexivity).
  assert (Hu : User_of_document alice_document = Ok alice_user)
    by (vm_compute; reflexivity).
  split; [reflexivity|]. split; [exact Ha|]. split; [exact Hf|].
  split; [exact Hg|]. split; [exact Hc|]. split; [exact Hu|].
  destruct (@login_binds_session stub_bcrypt stub_email alice_registered
              alice_login alice_document (stub_hash "s1" "Passw0rd!") alice_user
              eq_refl Ha Hf Hg Hc Hu) as [Hr [Hs _]].
  split; [exact Hr | exact Hs].
Defined.

(** Alice's identifier, the first the store gave out. *)
Lemma get_id_parses_back_witness :
  User._id alice_user = VOid 0
  /\ User.get_id alice_user = "000000000000000000000000"
  /\ ObjectId (User.get_id alice_user) = Ok (VOid 0).
Proof.
  split; [reflexivity|]. split; [reflexivity|].
  destruct (get_id_parses_back alice_user 0%N eq_refl) as [_ [_ Hp]].
  apply Hp. reflexivity.
Defined.

(** The user loader on Alice's session. *)
Lemma load_user_found_witness :
  ObjectId "000000000000000000000000" = Ok (VOid 0)
  /\ find_one (users alice_logged_in) "_id" (VOid 0) = Some alice_document
  /\ load_user "000000000000000000000000" alice_logged_in
     = (Ok (Some alice_user), alice_logged_in).
Proof.
  assert (Ho : ObjectId "000000000000000000000000" = Ok (VOid 0))
    by (vm_compute; reflexivity).
  assert (Hf : find_one (users alice_logged_in) "_id" (VOid 0) = Some alice_document)
    by (vm_compute; reflexivity).
  split; [exact Ho|]. split; [exact Hf|].
  exact (proj1 (load_user_found alice_logged_in _ _ _ Ho Hf)).
Defined.

(** Alice, logged in, opens the dashboard. *)
Lemma dashboard_iff_logged_in_witness :
  path (get_ "/dashboard") = "/dashboard"
  /\ fst (stub_handle alice_logged_in (get_ "/dashboard"))
     = Render "dashboard.html" None.
Proof.
  split; [reflexivity|].
  destruct (@dashboard_iff_logged_in stub_bcrypt stub_email alice_logged_in
              (get_ "/dashboard") eq_refl) as [[_ Hd] _].
  apply Hd. exists alice_user. vm_compute. reflexivity.
Defined.

(** A login with a password of four characters. *)
Lemma invalid_login_changes_nothing_witness :
  path short_password_login = "/login"
  /\ login_accepts short_password_login = false
  /\ snd (stub_handle alice_registered short_password_login) = alice_registered.
Proof.
  assert (Ha : login_accepts short_password_login = false)
    by (vm_compute; reflexivity).
  split; [reflexivity|]. split; [exact Ha|].
  exact (proj1 (@invalid_login_changes_nothing stub_bcrypt stub_email
                  alice_registered short_password_login eq_refl Ha)).
Defined.

(** The session Alice's login leaves was bound by that login. *)
Lemma session_bound_only_by_login_witness :
  user_id (session (snd (stub_handle alice_registered alice_login)))
  = Some "000000000000000000000000"
  /\ (user_id (session alice_registered) = Some "000000000000000000000000"
      \/ (path alice_login = "/login" /\ meth alice_login = POST
          /\ exists d h,
               find_one (users alice_registered) "username"
                 (VStr (submitted alice_login "username")) = Some d
               /\ get "password" d = Some (VStr h)
               /\ stub_check h (submitted alice_login "password") = true
               /\ "000000000000000000000000" = str (value_at d "_id"))).
Proof.
  assert (Hs : user_id (session (snd (stub_handle alice_registered alice_login)))
               = Some "000000000000000000000000") by (vm_compute; reflexivity).
  split; [exact Hs|].
  exact (@session_bound_only_by_login stub_bcrypt stub_email
           alice_registered alice_login _ Hs).
Defined.

(** Alice registers and logs in with what she registered. *)
Lemma registered_credentials_log_in_witness :
  path alice_registration = "/register"
  /\ @register_accepts stub_email (users empty_ctx) alice_registration = true
  /\ stub_check (stub_hash (salt alice_registration)
                           (submitted alice_registration "password"))
                (submitted alice_registration "password") = true
  /\ fst (stub_handle (snd (stub_handle empty_ctx alice_registration))
                      (login_of alice_registration))
     = Redirect "/dashboard" None.
Proof.
  assert (Ha : @register_accepts stub_email (users empty_ctx) alice_registration
               = true) by (vm_compute; reflexivity).
  assert (Hv : stub_check (stub_hash (salt alice_registration)
                             (submitted alice_registration "password"))
                 (submitted alice_registration "password") = true)
    by (vm_compute; reflexivity).
  split; [reflexivity|]. split; [exact Ha|]. split; [exact Hv|].
  exact (proj1 (proj2 (@registered_credentials_log_in stub_bcrypt stub_email
                         empty_ctx alice_registration eq_refl Ha Hv))).
Defined.

(** Alice logs in and opens the dashboard. *)
Lemma login_then_dashboard_witness :
  login_accepts alice_login = true
  /\ find_one (users alice_registered) "username"
       (VStr (submitted alice_login "username")) = Some alice_document
  /\ get "_id" alice_document = Some (VOid 0)
  /\ (0 < 2 ^ 96)%N
  /\ unique_on "_id" (users alice_registered)
  /\ fst (stub_handle (snd (stub_handle alice_registered alice_login))
                      (get_ "/dashboard"))
     = Render "dashboard.html" None.
Proof.
  assert (Ha : login_accepts alice_login = true) by (vm_compute; reflexivity).
  assert (Hf : find_one (users alice_registered) "username"
                 (VStr (submitted alice_login "username")) = Some alice_document)
    by (vm_compute; reflexivity).
  assert (Hg : get "password" alice_document
               = Some (VStr (stub_hash "s1" "Passw0rd!")))
    by (vm_compute; reflexivity).
  assert (Hc : stub_check (stub_hash "s1" "Passw0rd!")
                 (submitted alice_login "password") = true)
    by (vm_compute; reflexivity).
  assert (Hu : User_of_document alice_document = Ok alice_user)
    by (vm_compute; reflexivity).
  assert (Hid : get "_id" alice_document = Some (VOid 0)) by reflexivity.
  assert (Ho : (0 < 2 ^ 96)%N) by reflexivity.
  assert (Hq : unique_on "_id" (users alice_registered)).
  { unfold unique_on. simpl. constructor; [intros []|constructor]. }
  split; [exact Ha|]. split; [exact Hf|]. split; [exact Hid|].
  split; [exact Ho|]. split; [exact Hq|].
  exact (proj2 (@login_then_dashboard stub_bcrypt stub_email alice_registered
                  alice_login (get_ "/dashboard") alice_document
                  (stub_hash "s1" "Passw0rd!") alice_user 0%N
                  eq_refl Ha Hf Hg Hc Hu Hid Ho Hq eq_refl)).
Defined.

(** After Alice has registered and logged in, she opens the dashboard. *)
Lemma protected_routes_never_fail_witness :
  well_formed empty_ctx
  /\ protected (get_ "/dashboard")
  /\ is_server_error
       (fst (stub_handle
               (snd (stub_run empty_ctx [alice_registration; alice_login]))
               (get_ "/dashboard"))) = false.
Proof.
  assert (Hw : well_formed empty_ctx) by (split; [constructor | reflexivity]).
  assert (Hp : protected (get_ "/dashboard")) by (left; reflexivity).
  split; [exact Hw|]. split; [exact Hp|].
  exact (proj2 (proj2 (@protected_routes_never_fail stub_bcrypt stub_email
                         empty_ctx [alice_registration; alice_login]
                         (get_ "/dashboard") Hw Hp))).
Defined.

(** The store after Alice's registration. *)
Lemma stored_records_are_registered_witness :
  @reachable stub_bcrypt stub_email (users alice_registered)
  /\ Forall (@registered_record stub_bcrypt stub_email) (docs (users alice_registered)).
Proof.
  assert (Hr : @reachable stub_bcrypt stub_email (users alice_registered))
    by exact (@reachable_handle stub_bcrypt stub_email empty_ctx alice_registration
                (@reachable_empty stub_bcrypt stub_email 0%N)).
  split; [exact Hr|].
  exact (@stored_records_are_registered stub_bcrypt stub_email _ Hr).
Defined.

(** A registration under Alice's user name: the header and at least one
    line. *)
Lemma register_prints_errors_witness :
  path duplicate_registration = "/register"
  /\ meth duplicate_registration = POST
  /\ @register_accepts stub_email (users alice_registered) duplicate_registration
     = false
  /\ exists lines,
       stdout (snd (stub_handle alice_registered duplicate_registration))
       = (stdout alice_registered ++ "Form errors:" :: lines)%list
       /\ 1 <= List.length lines.
Proof.
  assert (Ha : @register_accepts stub_email (users alice_registered)
                 duplicate_registration = false) by (vm_compute; reflexivity).
  split; [reflexivity|]. split; [reflexivity|]. split; [exact Ha|].
  destruct (@register_prints_errors stub_bcrypt stub_email alice_registered
              duplicate_registration eq_refl) as [_ [_ Hp]].
  destruct (Hp eq_refl Ha) as [lines [Hs [_ Hl]]].
  exists lines. split; [exact Hs | exact Hl].
Defined.

(** Alice's login against a record that has no password. *)
Lemma login_on_incomplete_record_witness :
  path alice_login = "/login"
  /\ login_accepts alice_login = true
  /\ find_one (users bare_ctx) "username" (VStr (submitted alice_login "username"))
     = Some bare_record
  /\ get "password" bare_record = None
  /\ stub_handle bare_ctx alice_login
     = (InternalServerError (KeyError "password"), bare_ctx).
Proof.
  assert (Ha : login_accepts alice_login = true) by (vm_compute; reflexivity).
  assert (Hf : find_one (users bare_ctx) "username"
                 (VStr (submitted alice_login "username")) = Some bare_record)
    by (vm_compute; reflexivity).
  assert (Hg : get "password" bare_record = None) by reflexivity.
  split; [reflexivity|]. split; [exact Ha|]. split; [exact Hf|].
  split; [exact Hg|].
  exact (proj1 (@login_on_incomplete_record stub_bcrypt stub_email bare_ctx
                  alice_login bare_record eq_refl Ha Hf) Hg).
Defined.
